(** * netcup-go: the client of the netcup CCP DNS API (netcup.go)

    A shallow embedding of [netcup.go].  The package consists of one type,
    [Client], one unexported method, [request], and four exported ones,
    [Login], [Logout], [GetRecords] and [UpdateRecords].  Everything else
    happens in three collaborators of Go's standard library:

    - [unicode/utf8], used by [encoding/json] when it writes a string;
    - [encoding/json], modelled on the syntax tree of a JSON text: [Marshal]
      maps a Go value to the tree of the text it writes, [Unmarshal] maps the
      tree of the text it reads to a Go value;
    - [net/http], modelled as an oracle that answers each request, and whose
      calls are recorded.

    Go strings are byte strings: [string] of the Standard Library, whose
    characters are the 256 bytes. *)

From Stdlib Require Import String Ascii List ZArith NArith Bool Lia.
Import ListNotations.
Open Scope string_scope.
Open Scope list_scope.
Set Warnings "-register-all".

(* ================================================================== *)
(** ** unicode/utf8 *)

Module utf8.

Definition byte (a : ascii) : N := N_of_ascii a.

Definition between (lo hi : N) (a : ascii) : bool :=
  ((lo <=? byte a) && (byte a <=? hi))%N.

(** A continuation byte: [locb <= b <= hicb]. *)
Definition cont : ascii -> bool := between 0x80 0xBF.

(** The table [first] and [acceptRanges]: for a leading byte, the length of
    the sequence and the range accepted for its second byte; [None] for the
    bytes that start no sequence (0x80-0xC1 and 0xF5-0xFF). *)
Definition entry (size : nat) (lo hi : N) : option (nat * N * N) :=
  Some (size, lo, hi).

Definition first (b0 : ascii) : option (nat * N * N) :=
  let x := byte b0 in
  if (x <? 0x80)%N then entry 1 0x00 0x00
  else if (x <? 0xC2)%N then None
  else if (x <=? 0xDF)%N then entry 2 0x80 0xBF
  else if (x =? 0xE0)%N then entry 3 0xA0 0xBF
  else if (x <=? 0xEC)%N then entry 3 0x80 0xBF
  else if (x =? 0xED)%N then entry 3 0x80 0x9F
  else if (x <=? 0xEF)%N then entry 3 0x80 0xBF
  else if (x =? 0xF0)%N then entry 4 0x90 0xBF
  else if (x <=? 0xF3)%N then entry 4 0x80 0xBF
  else if (x =? 0xF4)%N then entry 4 0x80 0x8F
  else None.

(** [DecodeRuneInString s], as far as its callers here need it: the width of
    the encoding that starts [s]; [None] stands for the result
    [(RuneError, 1)] of an invalid or truncated encoding. *)
Definition DecodeRuneInString (s : string) : option nat :=
  match s with
  | EmptyString => Some 0
  | String b0 s1 =>
      match first b0 with
      | None => None
      | Some (size, lo, hi) =>
          match size, s1 with
          | 1, _ => Some 1
          | 2, String b1 _ =>
              if between lo hi b1 then Some 2 else None
          | 3, String b1 (String b2 _) =>
              if between lo hi b1 && cont b2 then Some 3 else None
          | 4, String b1 (String b2 (String b3 _)) =>
              if between lo hi b1 && cont b2 && cont b3 then Some 4 else None
          | _, _ => None
          end
      end
  end.

(** [ValidString]: every byte belongs to a well-formed encoding. *)
Fixpoint ValidString (s : string) : bool :=
  match s with
  | EmptyString => true
  | String b0 s1 =>
      match DecodeRuneInString s, s1 with
      | Some 1, _ => ValidString s1
      | Some 2, String _ s2 => ValidString s2
      | Some 3, String _ (String _ s3) => ValidString s3
      | Some 4, String _ (String _ (String _ s4)) => ValidString s4
      | _, _ => false
      end
  end.

(** U+FFFD, the replacement character, in UTF-8: EF BF BD. *)
Definition RuneError : string :=
  String "239" (String "191" (String "189" EmptyString)).

End utf8.

(* ================================================================== *)
(** ** Errors and results *)

(** The error values that reach a caller of this package. *)
Inductive error : Type :=
| errorString (s : string)          (* fmt.Errorf, errors.New: the text is [s] *)
| SyntaxError (msg : string)        (* *json.SyntaxError *)
| UnmarshalTypeError (Value : string) (Type_ : string)
                                    (* *json.UnmarshalTypeError *)
| transportError (msg : string).    (* an error of net/http or io *)

(** What a call does: it returns a value with a nil error, returns a non-nil
    error, or panics. *)
Inductive result (A : Type) : Type :=
| ok (a : A)
| err (e : error)
| panic (msg : string).
Arguments ok {A} a.
Arguments err {A} e.
Arguments panic {A} msg.

(* ================================================================== *)
(** ** encoding/json *)

Module json.

(** A number literal.  [Int z] is a literal without fraction and exponent, of
    value [z]; [Real lit] is any other literal. *)
Inductive number : Type :=
| Int (z : Z)
| Real (lit : string).

(** The syntax tree of a JSON text.  An object keeps its members in the order
    of the text, repeated keys included. *)
Inductive value : Type :=
| JNull
| JBool (b : bool)
| JNum (n : number)
| JStr (s : string)
| JArr (elems : list value)
| JObj (members : list (string * value)).

(** The name [Unmarshal] gives to the kind of a JSON value in an
    [UnmarshalTypeError]. *)
Definition kind (j : value) : string :=
  match j with
  | JNull => "null"
  | JBool _ => "bool"
  | JNum _ => "number"
  | JStr _ => "string"
  | JArr _ => "array"
  | JObj _ => "object"
  end.

(** *** Writing strings

    [Marshal] writes a string coerced to valid UTF-8: each byte that starts
    no well-formed encoding becomes U+FFFD, the other bytes are kept
    (the loop of [appendString]; escaping does not change the string the
    text denotes). *)
Fixpoint appendString (s : string) : string :=
  match s with
  | EmptyString => EmptyString
  | String b0 s1 =>
      let bad := String.append utf8.RuneError (appendString s1) in
      match utf8.DecodeRuneInString s, s1 with
      | Some 1, _ => String b0 (appendString s1)
      | Some 2, String b1 s2 => String b0 (String b1 (appendString s2))
      | Some 3, String b1 (String b2 s3) =>
          String b0 (String b1 (String b2 (appendString s3)))
      | Some 4, String b1 (String b2 (String b3 s4)) =>
          String b0 (String b1 (String b2 (String b3 (appendString s4))))
      | _, _ => bad
      end
  end.

Definition marshalString (s : string) : value := JStr (appendString s).

(** *** Matching object keys with field names

    [Unmarshal] prefers the field whose name is the key, and accepts the
    first field whose name equals the key under [foldName].  [foldName]
    writes ASCII letters in upper case and folds the two runes that fold to
    an ASCII letter, U+212A (Kelvin sign, E2 84 AA) to K and U+017F (long s,
    C5 BF) to S.  Other bytes are kept: the fold of another rune is not an
    ASCII letter, and every field name of this package is ASCII. *)
Definition isLower (c : ascii) : bool := utf8.between 0x61 0x7A c.

Definition toUpper (c : ascii) : ascii := ascii_of_N (utf8.byte c - 0x20).

Fixpoint foldName (s : string) : string :=
  match s with
  | EmptyString => EmptyString
  | String c r =>
      if isLower c then String (toUpper c) (foldName r)
      else
        match r with
        | String c1 r1 =>
            if ((utf8.byte c =? 0xC5) && (utf8.byte c1 =? 0xBF))%N
            then String "S" (foldName r1)
            else
              match r1 with
              | String c2 r2 =>
                  if ((utf8.byte c =? 0xE2) && (utf8.byte c1 =? 0x84)
                      && (utf8.byte c2 =? 0xAA))%N
                  then String "K" (foldName r2)
                  else String c (foldName r)
              | EmptyString => String c (foldName r)
              end
        | EmptyString => String c (foldName r)
        end
  end.

(** *** Decoding into a struct

    A struct type is described by its fields: the name in the [json] tag and
    the way a JSON value is stored into the field. *)
Section Struct.
Context {T : Type}.

Definition field : Type := (string * (value -> T -> error + T))%type.

Variable typeName : string.
Variable fields : list field.

Definition findField (key : string) : option field :=
  match find (fun f => fst f =? key) fields with
  | Some f => Some f
  | None => find (fun f => foldName (fst f) =? foldName key) fields
  end.

(** The members of an object are stored one after the other; a key that
    matches no field is skipped.  [Unmarshal] saves the first type error,
    keeps decoding and returns the saved error at the end; every caller in
    this package drops the value when an error is returned, so the model
    stops at the first error. *)
Fixpoint object (members : list (string * value)) (v : T) : error + T :=
  match members with
  | [] => inr v
  | (key, x) :: rest =>
      match findField key with
      | None => object rest v
      | Some f =>
          match snd f x v with
          | inl e => inl e
          | inr v' => object rest v'
          end
      end
  end.

(** [null] leaves a struct as it is; any value other than an object is a
    type error. *)
Definition unmarshalStruct (j : value) (v : T) : error + T :=
  match j with
  | JNull => inr v
  | JObj members => object members v
  | _ => inl (UnmarshalTypeError (kind j) typeName)
  end.
End Struct.

(** *** Decoding into fields of the basic types

    [null] leaves a string, a bool and an int as they are. *)
Definition storeString (j : value) (old : string) : error + string :=
  match j with
  | JStr s => inr s
  | JNull => inr old
  | _ => inl (UnmarshalTypeError (kind j) "string")
  end.

Definition storeBool (j : value) (old : bool) : error + bool :=
  match j with
  | JBool b => inr b
  | JNull => inr old
  | _ => inl (UnmarshalTypeError (kind j) "bool")
  end.

(** [int] is 64 bits wide.  A literal with a fraction or an exponent, and an
    integer that overflows, are type errors. *)
Definition fitsInt (z : Z) : bool :=
  ((- 2 ^ 63 <=? z) && (z <? 2 ^ 63))%Z.

Definition storeInt (j : value) (old : Z) : error + Z :=
  match j with
  | JNum (Int z) =>
      if fitsInt z then inr z else inl (UnmarshalTypeError "number" "int")
  | JNull => inr old
  | _ => inl (UnmarshalTypeError (kind j) "int")
  end.

(** A [*json.RawMessage] field: [null] sets the pointer to nil ([None]); any
    other value is kept as it is, behind a pointer that is not nil. *)
Definition storeRawMessage (j : value) (old : option value) : error + option value :=
  match j with
  | JNull => inr None
  | _ => inr (Some j)
  end.

(** A slice: nil ([None]) or its elements, and behind them what its backing
    array still holds beyond its length ([spare]; further on the array holds
    zero values).  Nothing in the package looks beyond the length of a slice,
    but [Unmarshal] does when it decodes into a slice a second time. *)
Record slice (T : Type) : Type := {
  elements : option (list T);
  spare : list T
}.
Arguments elements {T} s.
Arguments spare {T} s.

Definition nilSlice {T : Type} : slice T := {| elements := None; spare := [] |}.

(** A slice field.  [null] sets it to nil.  An array is decoded element by
    element, in the order of the text: the slice is extended over its
    backing array as far as the array goes, and grown with zero values
    beyond, and the element at place [i] is decoded into what the slice holds
    at place [i] - the element decoded there before, what a longer earlier
    array left there, or a zero value.  At the end the slice is cut to the
    number of elements of the array; what lay beyond stays in the backing
    array.  An empty array gives a new empty slice. *)
Section Slice.
Context {T : Type}.
Variable typeName : string.
Variable zero : T.
Variable elem : value -> T -> error + T.

(** The elements of an array decoded into the places of [backing], one after
    the other. *)
Fixpoint array (elems : list value) (backing : list T) : error + list T :=
  match elems with
  | [] => inr []
  | x :: rest =>
      match elem x (hd zero backing) with
      | inl e => inl e
      | inr v =>
          match array rest (tl backing) with
          | inl e => inl e
          | inr vs => inr (v :: vs)
          end
      end
  end.

(** The backing array of a slice, as far as it was written. *)
Definition backingOf (s : slice T) : list T :=
  match elements s with
  | Some l => l ++ spare s
  | None => spare s
  end.

Definition storeSlice (j : value) (old : slice T) : error + slice T :=
  match j with
  | JNull => inr nilSlice
  | JArr [] => inr {| elements := Some []; spare := [] |}
  | JArr elems =>
      match array elems (backingOf old) with
      | inl e => inl e
      | inr vs =>
          inr {| elements := Some vs;
                 spare := skipn (List.length elems) (backingOf old) |}
      end
  | _ => inl (UnmarshalTypeError (kind j) typeName)
  end.
End Slice.

(** *** Maps and [interface{}]

    A Go map with string keys is kept as its entries sorted by key, the order
    in which [Marshal] writes them (byte-wise, as [String.compare]). *)
Definition gomap (V : Type) : Type := list (string * V).

(** [m[k] = v] *)
Fixpoint mapassign {V : Type} (k : string) (v : V) (m : gomap V) : gomap V :=
  match m with
  | [] => [(k, v)]
  | (k', v') :: rest =>
      match String.compare k k' with
      | Lt => (k, v) :: m
      | Eq => (k, v) :: rest
      | Gt => (k', v') :: mapassign k v rest
      end
  end.

(** [m[k]], and the member of an object written from a map or a struct. *)
Fixpoint mapaccess {V : Type} (k : string) (m : list (string * V)) : option V :=
  match m with
  | [] => None
  | (k', v) :: rest => if k' =? k then Some v else mapaccess k rest
  end.

(** The dynamic values held by an [interface{}] in this package: what
    [Unmarshal] stores into an empty interface (nil, bool, float64, string,
    [[]interface{}], [map[string]interface{}]), and the [int] that [request]
    stores itself.  A float64 is kept as the literal [Marshal] writes for
    it. *)
Inductive iface : Type :=
| IfNil
| IfBool (b : bool)
| IfFloat64 (n : number)
| IfString (s : string)
| IfInt (z : Z)
| IfSlice (elems : list iface)
| IfMap (m : list (string * iface)).

Section Interface.
(** [strconv.ParseFloat] followed by the formatting of [Marshal] for a
    float64: the literal written for the float64 read from a literal, or
    [None] when the literal is out of the range of float64.  The functions
    that format and parse floating-point numbers are not modelled; no
    parameter of this package holds a number. *)
Variable float64 : number -> option number.

(** [Unmarshal] into an empty interface.  The members of an object are
    assigned to a fresh map one after the other: the last one wins. *)
Fixpoint valueInterface (j : value) : error + iface :=
  match j with
  | JNull => inr IfNil
  | JBool b => inr (IfBool b)
  | JNum n =>
      match float64 n with
      | Some f => inr (IfFloat64 f)
      | None => inl (UnmarshalTypeError "number" "float64")
      end
  | JStr s => inr (IfString s)
  | JArr elems =>
      match
        (fix arrayInterface (l : list value) : error + list iface :=
           match l with
           | [] => inr []
           | x :: rest =>
               match valueInterface x with
               | inl e => inl e
               | inr v =>
                   match arrayInterface rest with
                   | inl e => inl e
                   | inr vs => inr (v :: vs)
                   end
               end
           end) elems
      with
      | inl e => inl e
      | inr vs => inr (IfSlice vs)
      end
  | JObj members =>
      match
        (fix objectInterface (l : list (string * value)) (m : gomap iface)
           : error + gomap iface :=
           match l with
           | [] => inr m
           | (key, x) :: rest =>
               match valueInterface x with
               | inl e => inl e
               | inr v => objectInterface rest (mapassign key v m)
               end
           end) members []
      with
      | inl e => inl e
      | inr m => inr (IfMap m)
      end
  end.

(** The loop of [valueInterface] over the elements of an array, on its
    own. *)
Definition arrayInterface : list value -> error + list iface :=
  fix arrayInterface (l : list value) : error + list iface :=
    match l with
    | [] => inr []
    | x :: rest =>
        match valueInterface x with
        | inl e => inl e
        | inr v =>
            match arrayInterface rest with
            | inl e => inl e
            | inr vs => inr (v :: vs)
            end
        end
    end.

(** [Unmarshal] into a variable of type [map[string]interface{}], nil when
    [None]: [null] sets the map to nil; an object is stored member by
    member into the map, made first when it is nil, and the entries it
    already has are kept. *)
Fixpoint objectMap (members : list (string * value)) (m : gomap iface)
  : error + gomap iface :=
  match members with
  | [] => inr m
  | (key, x) :: rest =>
      match valueInterface x with
      | inl e => inl e
      | inr v => objectMap rest (mapassign key v m)
      end
  end.

Definition unmarshalMap (j : value) (m : option (gomap iface))
  : error + option (gomap iface) :=
  match j with
  | JNull => inr None
  | JObj members =>
      match objectMap members (match m with Some m0 => m0 | None => [] end) with
      | inl e => inl e
      | inr m' => inr (Some m')
      end
  | _ => inl (UnmarshalTypeError (kind j) "map[string]interface {}")
  end.
End Interface.

(** [Marshal] of the value held by an interface.  The keys of a map are
    written in sorted order, which is the order they are kept in. *)
Fixpoint marshalInterface (v : iface) : value :=
  match v with
  | IfNil => JNull
  | IfBool b => JBool b
  | IfFloat64 n => JNum n
  | IfString s => marshalString s
  | IfInt z => JNum (Int z)
  | IfSlice elems => JArr (map marshalInterface elems)
  | IfMap m => JObj (map (fun kv => (appendString (fst kv), marshalInterface (snd kv))) m)
  end.

(** A map variable passed where an interface is expected; a nil map is
    written as [null]. *)
Definition ifaceOfMap (m : option (gomap iface)) : iface :=
  match m with
  | Some m0 => IfMap m0
  | None => IfNil
  end.

(** [strings.Contains] *)
Fixpoint Contains (s substr : string) : bool :=
  prefix substr s ||
  match s with
  | EmptyString => false
  | String _ rest => Contains rest substr
  end.

End json.

(* ================================================================== *)
(** ** package netcup *)

Module netcup.
Import json.

Definition endpoint_const : string :=
  "https://ccp.netcup.net/run/webservice/servers/endpoint.php?JSON".

(** A pointer, by its address. *)
Definition pointer : Type := nat.

(** A Record is a domain DNS record ([Record] in the source). *)
Record Record_ : Type := {
  ID : string;
  Hostname : string;
  Type_ : string;
  Priority : string;
  Destination : string;
  DeleteRecord : bool;
  State : string
}.

(** The Client is the entrypoint to the Netcup API.  [records] is a slice:
    nil ([None]) or its elements.  The field is assigned and never read, so
    the client keeps the elements of the slice only, and so does the caller
    a slice is returned to. *)
Record Client : Type := {
  customerNumber : Z;
  apiKey : string;
  sessionID : string;
  endpoint : string;
  httpClient : pointer;
  domainName : string;
  records : option (list Record_)
}.

(** requestBody for all messages sent to the API *)
Module requestBody.
Record t : Type := { Action : string; Param : iface }.
End requestBody.

(** responseBody sent by the API; [ResponseData] is a [*json.RawMessage],
    nil when [None]. *)
Record responseBody : Type := {
  ServerRequestID : string;
  ClientRequestID : string;
  Action : string;
  Status : string;
  StatusCode : Z;
  ShortMessage : string;
  LongMessage : string;
  ResponseData : option value
}.

(** NewClient returns a new client for the Netcup CCP API; [http] is the
    address of the [http.Client] it allocates. *)
Definition NewClient (customerNumber : Z) (apiKey : string) (http : pointer) : Client :=
  {| customerNumber := customerNumber;
     apiKey := apiKey;
     sessionID := "";
     endpoint := endpoint_const;
     httpClient := http;
     domainName := "";
     records := None |}.

(** *** The zero values *)
Definition zeroRecord : Record_ :=
  {| ID := ""; Hostname := ""; Type_ := ""; Priority := ""; Destination := "";
     DeleteRecord := false; State := "" |}.

Definition zeroResponseBody : responseBody :=
  {| ServerRequestID := ""; ClientRequestID := ""; Action := ""; Status := "";
     StatusCode := 0; ShortMessage := ""; LongMessage := "";
     ResponseData := None |}.

(** *** The JSON form of the types of the package

    [Marshal] writes the fields of a struct in the order of their
    declaration, under the names of their [json] tags; none of the tags has
    an option, so every field is written. *)
Definition marshalRecord (r : Record_) : value :=
  JObj [ ("id", marshalString (ID r));
         ("hostname", marshalString (Hostname r));
         ("type", marshalString (Type_ r));
         ("priority", marshalString (Priority r));
         ("destination", marshalString (Destination r));
         ("deleterecord", JBool (DeleteRecord r));
         ("state", marshalString (State r)) ].

(** A nil slice is written as [null], any other one as an array. *)
Definition marshalRecords (s : option (list Record_)) : value :=
  match s with
  | None => JNull
  | Some l => JArr (map marshalRecord l)
  end.

(** Storing the result of a decoder into a field. *)
Definition into {A T : Type} (r : error + A) (set : A -> T) : error + T :=
  match r with
  | inl e => inl e
  | inr a => inr (set a)
  end.

Definition RecordFields : list (@field Record_) :=
  [ ("id", fun j r => into (storeString j (ID r)) (fun x =>
       {| ID := x; Hostname := Hostname r; Type_ := Type_ r;
          Priority := Priority r; Destination := Destination r;
          DeleteRecord := DeleteRecord r; State := State r |}));
    ("hostname", fun j r => into (storeString j (Hostname r)) (fun x =>
       {| ID := ID r; Hostname := x; Type_ := Type_ r;
          Priority := Priority r; Destination := Destination r;
          DeleteRecord := DeleteRecord r; State := State r |}));
    ("type", fun j r => into (storeString j (Type_ r)) (fun x =>
       {| ID := ID r; Hostname := Hostname r; Type_ := x;
          Priority := Priority r; Destination := Destination r;
          DeleteRecord := DeleteRecord r; State := State r |}));
    ("priority", fun j r => into (storeString j (Priority r)) (fun x =>
       {| ID := ID r; Hostname := Hostname r; Type_ := Type_ r;
          Priority := x; Destination := Destination r;
          DeleteRecord := DeleteRecord r; State := State r |}));
    ("destination", fun j r => into (storeString j (Destination r)) (fun x =>
       {| ID := ID r; Hostname := Hostname r; Type_ := Type_ r;
          Priority := Priority r; Destination := x;
          DeleteRecord := DeleteRecord r; State := State r |}));
    ("deleterecord", fun j r => into (storeBool j (DeleteRecord r)) (fun x =>
       {| ID := ID r; Hostname := Hostname r; Type_ := Type_ r;
          Priority := Priority r; Destination := Destination r;
          DeleteRecord := x; State := State r |}));
    ("state", fun j r => into (storeString j (State r)) (fun x =>
       {| ID := ID r; Hostname := Hostname r; Type_ := Type_ r;
          Priority := Priority r; Destination := Destination r;
          DeleteRecord := DeleteRecord r; State := x |})) ].

(** [json.Unmarshal(text, &r)] for [r] of type [Record], on the tree of
    [text]. *)
Definition unmarshalRecord (j : value) (r : Record_) : error + Record_ :=
  unmarshalStruct "netcup.Record" RecordFields j r.

Definition responseBodyFields : list (@field responseBody) :=
  [ ("serverrequestid", fun j r => into (storeString j (ServerRequestID r)) (fun x =>
       {| ServerRequestID := x; ClientRequestID := ClientRequestID r;
          Action := Action r; Status := Status r; StatusCode := StatusCode r;
          ShortMessage := ShortMessage r; LongMessage := LongMessage r;
          ResponseData := ResponseData r |}));
    ("clientrequestid", fun j r => into (storeString j (ClientRequestID r)) (fun x =>
       {| ServerRequestID := ServerRequestID r; ClientRequestID := x;
          Action := Action r; Status := Status r; StatusCode := StatusCode r;
          ShortMessage := ShortMessage r; LongMessage := LongMessage r;
          ResponseData := ResponseData r |}));
    ("action", fun j r => into (storeString j (Action r)) (fun x =>
       {| ServerRequestID := ServerRequestID r; ClientRequestID := ClientRequestID r;
          Action := x; Status := Status r; StatusCode := StatusCode r;
          ShortMessage := ShortMessage r; LongMessage := LongMessage r;
          ResponseData := ResponseData r |}));
    ("status", fun j r => into (storeString j (Status r)) (fun x =>
       {| ServerRequestID := ServerRequestID r; ClientRequestID := ClientRequestID r;
          Action := Action r; Status := x; StatusCode := StatusCode r;
          ShortMessage := ShortMessage r; LongMessage := LongMessage r;
          ResponseData := ResponseData r |}));
    ("statuscode", fun j r => into (storeInt j (StatusCode r)) (fun x =>
       {| ServerRequestID := ServerRequestID r; ClientRequestID := ClientRequestID r;
          Action := Action r; Status := Status r; StatusCode := x;
          ShortMessage := ShortMessage r; LongMessage := LongMessage r;
          ResponseData := ResponseData r |}));
    ("shortmessage", fun j r => into (storeString j (ShortMessage r)) (fun x =>
       {| ServerRequestID := ServerRequestID r; ClientRequestID := ClientRequestID r;
          Action := Action r; Status := Status r; StatusCode := StatusCode r;
          ShortMessage := x; LongMessage := LongMessage r;
          ResponseData := ResponseData r |}));
    ("longmessage", fun j r => into (storeString j (LongMessage r)) (fun x =>
       {| ServerRequestID := ServerRequestID r; ClientRequestID := ClientRequestID r;
          Action := Action r; Status := Status r; StatusCode := StatusCode r;
          ShortMessage := ShortMessage r; LongMessage := x;
          ResponseData := ResponseData r |}));
    ("responsedata", fun j r => into (storeRawMessage j (ResponseData r)) (fun x =>
       {| ServerRequestID := ServerRequestID r; ClientRequestID := ClientRequestID r;
          Action := Action r; Status := Status r; StatusCode := StatusCode r;
          ShortMessage := ShortMessage r; LongMessage := LongMessage r;
          ResponseData := x |})) ].

(** The body of a response as [Unmarshal] sees it: not a JSON text ([inl],
    with the message of the syntax error), or the tree of the text. *)
Definition body : Type := (string + value)%type.

(** [json.Unmarshal(body, &responseBody)]: the text is checked first, then
    decoded. *)
Definition unmarshalResponseBody (b : body) (r : responseBody) : error + responseBody :=
  match b with
  | inl msg => inl (SyntaxError msg)
  | inr j => unmarshalStruct "netcup.responseBody" responseBodyFields j r
  end.

(** The anonymous struct [responseData] of [Login]. *)
Record loginData : Type := { APISessionID : string }.

Definition loginDataFields : list (@field loginData) :=
  [ ("apisessionid", fun j r => into (storeString j (APISessionID r)) (fun x =>
       {| APISessionID := x |})) ].

Definition unmarshalLoginData (j : value) (r : loginData) : error + loginData :=
  unmarshalStruct "struct { APISessionID string }" loginDataFields j r.

(** The anonymous struct [responseData] of [GetRecords] and
    [UpdateRecords]. *)
Record recordsData : Type := { DNSRecords : slice Record_ }.

Definition zeroRecordsData : recordsData := {| DNSRecords := nilSlice |}.

Definition recordsDataFields : list (@field recordsData) :=
  [ ("dnsrecords", fun j r =>
       into (storeSlice "[]netcup.Record" zeroRecord unmarshalRecord j (DNSRecords r))
            (fun x => {| DNSRecords := x |})) ].

Definition unmarshalRecordsData (j : value) (r : recordsData) : error + recordsData :=
  unmarshalStruct "struct { DNSRecords []netcup.Record }" recordsDataFields j r.

(** The values passed as [param interface{}] to [request]: the anonymous
    structs of [Login], [GetRecords] and [UpdateRecords] ([nil], the
    parameter of [Logout], is [None] below). *)
Record recordSet : Type := { Records : option (list Record_) }.

Inductive Param : Type :=
| loginParam (APIPassword : string)
| infoParam (DomainName : string)
| updateParam (DomainName : string) (DNSRecordSet : recordSet).

(** [json.Marshal(param)].  It has no failing case on these types. *)
Definition marshalParam (p : Param) : value :=
  match p with
  | loginParam pw => JObj [ ("apipassword", marshalString pw) ]
  | infoParam d => JObj [ ("domainname", marshalString d) ]
  | updateParam d rs =>
      JObj [ ("domainname", marshalString d);
             ("dnsrecordset", JObj [ ("dnsrecords", marshalRecords (Records rs)) ]) ]
  end.

(** [json.Marshal(request)] for [request] of type [*requestBody]. *)
Definition marshalRequestBody (r : requestBody.t) : value :=
  JObj [ ("action", marshalString (requestBody.Action r));
         ("param", marshalInterface (requestBody.Param r)) ].

(** *** The network

    [c.httpClient.Post] sends one request and [ioutil.ReadAll] reads the body
    of the response.  The transport is an oracle: it answers a request
    knowing the requests sent before it.  Every call of [Post] is recorded on
    the wire. *)
Record Exchange : Type := {
  via : pointer;            (* the http.Client used *)
  url : string;
  contentType : string;
  sent : value              (* the tree of the text sent *)
}.

Inductive Response : Type :=
| Unreadable (msg : string)   (* ReadAll returns an error *)
| Readable (b : body).        (* ReadAll returns the body *)

Inductive Reply : Type :=
| PostFails (msg : string)    (* Post returns an error *)
| Responds (r : Response).

Record World : Type := {
  client : Client;                                  (* the cell [c] points to *)
  transport : list Exchange -> Exchange -> Reply;
  wire : list Exchange
}.

(** *** Computations: the state is the world, a call returns, fails with an
    error or panics. *)
Definition M (A : Type) : Type := World -> result A * World.

Definition ret {A : Type} (a : A) : M A := fun w => (ok a, w).

Definition bind {A B : Type} (m : M A) (k : A -> M B) : M B :=
  fun w =>
    match m w with
    | (ok a, w') => k a w'
    | (err e, w') => (err e, w')
    | (panic msg, w') => (panic msg, w')
    end.

Notation "x <- m ;; k" := (bind m (fun x => k))
  (at level 61, m at next level, right associativity).

(** [return nil, err] *)
Definition fail {A : Type} (e : error) : M A := fun w => (err e, w).

Definition throw {A : Type} (msg : string) : M A := fun w => (panic msg, w).

(** [v, err := f(); if err != nil { return nil, err }] *)
Definition try {A : Type} (r : error + A) : M A :=
  match r with
  | inl e => fail e
  | inr a => ret a
  end.

Definition getClient : M Client := fun w => (ok (client w), w).

(** The world in which the client is [c]. *)
Definition inWorld (c : Client) (w : World) : World :=
  {| client := c; transport := transport w; wire := wire w |}.

Definition putClient (c : Client) : M unit :=
  fun w => (ok tt, inWorld c w).

(** The client after [c.sessionID = s] and after [c.records = rs]. *)
Definition withSessionID (s : string) (c : Client) : Client :=
  {| customerNumber := customerNumber c; apiKey := apiKey c;
     sessionID := s; endpoint := endpoint c;
     httpClient := httpClient c; domainName := domainName c;
     records := records c |}.

Definition withRecords (rs : option (list Record_)) (c : Client) : Client :=
  {| customerNumber := customerNumber c; apiKey := apiKey c;
     sessionID := sessionID c; endpoint := endpoint c;
     httpClient := httpClient c; domainName := domainName c;
     records := rs |}.

(** [c.sessionID = s] *)
Definition setSessionID (s : string) : M unit :=
  c <- getClient ;;
  putClient (withSessionID s c).

(** [c.records = rs] *)
Definition setRecords (rs : option (list Record_)) : M unit :=
  c <- getClient ;;
  putClient (withRecords rs c).

(** [paramMap[k] = v]; an assignment to an entry of a nil map panics. *)
Definition assign (k : string) (v : iface) (m : option (gomap iface))
  : M (option (gomap iface)) :=
  match m with
  | Some m0 => ret (Some (mapassign k v m0))
  | None => throw "assignment to entry in nil map"
  end.

(** [*buf]; the dereference of a nil pointer panics. *)
Definition nilDereference : string :=
  "invalid memory address or nil pointer dereference".

Definition deref {A : Type} (p : option A) : M A :=
  match p with
  | Some a => ret a
  | None => throw nilDereference
  end.

(** The world after [ex] has been sent. *)
Definition afterPost (ex : Exchange) (w : World) : World :=
  {| client := client w; transport := transport w; wire := wire w ++ [ex] |}.

(** [client.Post(url, contentType, body)] *)
Definition Post (cl : pointer) (url contentType : string) (buf : value) : M Response :=
  fun w =>
    let ex := {| via := cl; url := url; contentType := contentType; sent := buf |} in
    match transport w (wire w) ex with
    | PostFails msg => (err (transportError msg), afterPost ex w)
    | Responds r => (ok r, afterPost ex w)
    end.

(** [ioutil.ReadAll(response.Body)] *)
Definition ReadAll (r : Response) : M body :=
  match r with
  | Unreadable msg => fail (transportError msg)
  | Readable b => ret b
  end.

Definition quote : string := String "034" EmptyString.

Definition noSession : error :=
  errorString "no session ID. Make sure to login first".

(** [fmt.Errorf(`Request "%s" failed: %s`, action, longMessage)] *)
Definition requestFailed (action longMessage : string) : error :=
  errorString
    (String.append "Request "
      (String.append quote
        (String.append action
          (String.append quote
            (String.append " failed: " longMessage))))).

Section Operations.
Variable float64 : number -> option number.

(** Lines 73-85 of [request]: the parameter, converted to a map by
    [Marshal] and [Unmarshal]; the empty map when it is nil. *)
Definition flatten (param : option Param) : error + option (gomap iface) :=
  match param with
  | None => inr (Some [])
  | Some p =>
      (* convert param to map *)
      let paramBytes := marshalParam p in
      unmarshalMap float64 paramBytes (Some [])
  end.

Definition request (action : string) (param : option Param) : M (option value) :=
  c <- getClient ;;
  if (sessionID c =? "") && negb (action =? "login")
  then fail noSession
  else
    paramMap <- try (flatten param) ;;
    (* Add common request data *)
    paramMap <- assign "customernumber" (IfInt (customerNumber c)) paramMap ;;
    paramMap <- assign "apikey" (IfString (apiKey c)) paramMap ;;
    paramMap <- (if negb (sessionID c =? "")
                 then assign "apisessionid" (IfString (sessionID c)) paramMap
                 else ret paramMap) ;;
    let request := {| requestBody.Action := action;
                      requestBody.Param := ifaceOfMap paramMap |} in
    let buf := marshalRequestBody request in
    response <- Post (httpClient c) (endpoint c) "application/json" buf ;;
    body <- ReadAll response ;;
    responseBody <- try (unmarshalResponseBody body zeroResponseBody) ;;
    if negb (StatusCode responseBody =? 2000)%Z
    then fail (requestFailed action (LongMessage responseBody))
    else ret (ResponseData responseBody).

(** Login before calling any other actions *)
Definition Login (apiPassword : string) : M unit :=
  let param := loginParam apiPassword in
  buf <- request "login" (Some param) ;;
  raw <- deref buf ;;
  responseData <- try (unmarshalLoginData raw {| APISessionID := "" |}) ;;
  setSessionID (APISessionID responseData).

(** Logout to close the session *)
Definition Logout : M unit :=
  _ <- request "logout" None ;;
  setSessionID "".

(** GetRecords of a domain *)
Definition GetRecords (domainname : string) : M (option (list Record_)) :=
  let param := infoParam domainname in
  buf <- request "infoDnsRecords" (Some param) ;;
  raw <- deref buf ;;
  responseData <- try (unmarshalRecordsData raw zeroRecordsData) ;;
  _ <- setRecords (elements (DNSRecords responseData)) ;;
  ret (elements (DNSRecords responseData)).

(** UpdateRecords of a domain *)
Definition UpdateRecords (domainname : string) (records : option (list Record_))
  : M (option (list Record_)) :=
  let param := updateParam domainname {| Records := records |} in
  buf <- request "updateDnsRecords" (Some param) ;;
  raw <- deref buf ;;
  responseData <- try (unmarshalRecordsData raw zeroRecordsData) ;;
  _ <- setRecords (elements (DNSRecords responseData)) ;;
  ret (elements (DNSRecords responseData)).
End Operations.

(** *** Vocabulary of the statements *)

(** The map of a request of client [c] whose parameter converts to [m]:
    lines 88-92 of [request]. *)
Definition commonData (c : Client) (m : gomap iface) : gomap iface :=
  let m := mapassign "customernumber" (IfInt (customerNumber c)) m in
  let m := mapassign "apikey" (IfString (apiKey c)) m in
  if negb (sessionID c =? "")
  then mapassign "apisessionid" (IfString (sessionID c)) m
  else m.

(** What client [c] sends for [action] with that map. *)
Definition exchangeOf (c : Client) (action : string) (m : gomap iface) : Exchange :=
  {| via := httpClient c;
     url := endpoint c;
     contentType := "application/json";
     sent := marshalRequestBody
               {| requestBody.Action := action;
                  requestBody.Param := IfMap (commonData c m) |} |}.

(** What [request] returns for a reply of the transport: lines 100-120. *)
Definition conclude (action : string) (reply : Reply) : result (option value) :=
  match reply with
  | PostFails msg => err (transportError msg)
  | Responds (Unreadable msg) => err (transportError msg)
  | Responds (Readable b) =>
      match unmarshalResponseBody b zeroResponseBody with
      | inl e => err e
      | inr r =>
          if negb (StatusCode r =? 2000)%Z
          then err (requestFailed action (LongMessage r))
          else ok (ResponseData r)
      end
  end.

(** What [GetRecords] and [UpdateRecords] do with the result of
    [request]. *)
Definition storeRecords (out : result (option value) * World)
  : result (option (list Record_)) * World :=
  match out with
  | (ok (Some raw), w1) =>
      match unmarshalRecordsData raw zeroRecordsData with
      | inl e => (err e, w1)
      | inr rd =>
          (ok (elements (DNSRecords rd)),
           inWorld (withRecords (elements (DNSRecords rd)) (client w1)) w1)
      end
  | (ok None, w1) => (panic nilDereference, w1)
  | (err e, w1) => (err e, w1)
  | (panic msg, w1) => (panic msg, w1)
  end.

(** The members of the [param] object of a request that was sent. *)
Definition paramSent (ex : Exchange) : list (string * value) :=
  match sent ex with
  | JObj members =>
      match mapaccess "param" members with
      | Some (JObj p) => p
      | _ => []
      end
  | _ => []
  end.

(** The keys of the object a parameter is written as. *)
Definition paramKeys (param : option Param) : list string :=
  match param with
  | None => []
  | Some p =>
      match marshalParam p with
      | JObj members => map fst members
      | _ => []
      end
  end.

(** A record read back from its JSON form into an [interface{}]: a map, its
    keys in sorted order. *)
Definition recordInterface (r : Record_) : iface :=
  IfMap [ ("deleterecord", IfBool (DeleteRecord r));
          ("destination", IfString (appendString (Destination r)));
          ("hostname", IfString (appendString (Hostname r)));
          ("id", IfString (appendString (ID r)));
          ("priority", IfString (appendString (Priority r)));
          ("state", IfString (appendString (State r)));
          ("type", IfString (appendString (Type_ r))) ].

Definition recordsInterface (rs : option (list Record_)) : iface :=
  match rs with
  | None => IfNil
  | Some l => IfSlice (map recordInterface l)
  end.

(** The map each parameter of the package converts to. *)
Definition paramMapOf (param : option Param) : gomap iface :=
  match param with
  | None => []
  | Some (loginParam pw) => [("apipassword", IfString (appendString pw))]
  | Some (infoParam d) => [("domainname", IfString (appendString d))]
  | Some (updateParam d rs) =>
      [ ("dnsrecordset", IfMap [("dnsrecords", recordsInterface (Records rs))]);
        ("domainname", IfString (appendString d)) ]
  end.

(** The fields of the client that hold its identity and its transport. *)
Definition sameIdentity (c c' : Client) : Prop :=
  customerNumber c' = customerNumber c
  /\ apiKey c' = apiKey c
  /\ endpoint c' = endpoint c
  /\ httpClient c' = httpClient c
  /\ domainName c' = domainName c.

(** An operation failed with the API error of [action] and left the client
    as it was. *)
Definition apiFailure {A : Type} (action longMessage : string) (c : Client)
    (out : result A * World) : Prop :=
  fst out = err (requestFailed action longMessage)
  /\ sessionID (client (snd out)) = sessionID c
  /\ records (client (snd out)) = records c.

(** The six string fields of a record are valid UTF-8. *)
Definition validRecord (r : Record_) : bool :=
  utf8.ValidString (ID r) && utf8.ValidString (Hostname r) &&
  utf8.ValidString (Type_ r) && utf8.ValidString (Priority r) &&
  utf8.ValidString (Destination r) && utf8.ValidString (State r).

(** The seven names of the fields of a record, in the order of the struct and
    in sorted order. *)
Definition recordKeys : list string :=
  [ "id"; "hostname"; "type"; "priority"; "destination"; "deleterecord"; "state" ].

Definition recordKeysSorted : list string :=
  [ "deleterecord"; "destination"; "hostname"; "id"; "priority"; "state"; "type" ].

(** *** The scenarios of netcup_test.go

    The stand-in server of the tests answers every request with one fixed
    body. *)
Definition server (reply : value) : list Exchange -> Exchange -> Reply :=
  fun _ _ => Responds (Readable (inr reply)).

(** The envelopes of the tests. *)
Definition envelope (action shortMessage longMessage : string) (data : value) : value :=
  JObj [ ("serverrequestid", JStr "");
         ("clientrequestid", JStr "");
         ("action", JStr action);
         ("status", JStr "success");
         ("statuscode", JNum (Int 2000));
         ("shortmessage", JStr shortMessage);
         ("longmessage", JStr longMessage);
         ("responsedata", data) ].

(** A record as the server of the tests writes it. *)
Definition recordJSON (id hostname type priority destination : string) : value :=
  JObj [ ("id", JStr id);
         ("hostname", JStr hostname);
         ("type", JStr type);
         ("priority", JStr priority);
         ("destination", JStr destination);
         ("deleterecord", JBool false);
         ("state", JStr "yes") ].

Definition mkRecord (id hostname type priority destination : string) : Record_ :=
  {| ID := id; Hostname := hostname; Type_ := type; Priority := priority;
     Destination := destination; DeleteRecord := false; State := "yes" |}.

(** [setup]: [NewClient(1234, "key")], its endpoint set to the URL of the
    stand-in server. *)
Definition testClient (session : string) : Client :=
  let c := NewClient 1234 "key" 1 in
  {| customerNumber := customerNumber c; apiKey := apiKey c;
     sessionID := session; endpoint := "http://127.0.0.1";
     httpClient := httpClient c; domainName := domainName c;
     records := records c |}.

Definition testWorld (session : string) (reply : value) : World :=
  {| client := testClient session; transport := server reply; wire := [] |}.

Definition loginReply : value :=
  envelope "login" "Login successful" "Session has been created successful."
    (JObj [ ("apisessionid", JStr "thisisasessionid") ]).

Definition logoutReply : value :=
  envelope "logout" "Logout successful" "Session has been terminated successful."
    (JStr "").

Definition infoReply : value :=
  envelope "infoDnsRecords" "DNS records found" "DNS Records for this zone were found."
    (JObj [ ("dnsrecords",
             JArr [ recordJSON "123451" "@" "A" "0" "127.0.0.1";
                    recordJSON "123452" "@" "MX" "10" "mail.example.com";
                    recordJSON "123453" "mail" "AAAA" "0" "1234:5678:90ab:cdef::1";
                    recordJSON "123454" "mail" "A" "0" "127.0.0.1";
                    recordJSON "123455" "www" "CNAME" "0" "@" ]) ]).

Definition wantRecords : list Record_ :=
  [ mkRecord "123451" "@" "A" "0" "127.0.0.1";
    mkRecord "123452" "@" "MX" "10" "mail.example.com";
    mkRecord "123453" "mail" "AAAA" "0" "1234:5678:90ab:cdef::1";
    mkRecord "123454" "mail" "A" "0" "127.0.0.1";
    mkRecord "123455" "www" "CNAME" "0" "@" ].

Definition updateReply : value :=
  envelope "updateDnsRecords" "DNS records successful updated"
    "The given DNS records for this zone were updated."
    (JObj [ ("dnsrecords",
             JArr [ recordJSON "123451" "@" "A" "0" "127.0.0.1";
                    recordJSON "123452" "@" "MX" "10" "mail.example.com";
                    recordJSON "123453" "mail" "AAAA" "0" "1234:5678:90ab:cdef::1";
                    recordJSON "123454" "mail" "A" "0" "127.0.0.1";
                    recordJSON "123455" "www" "CNAME" "0" "@";
                    recordJSON "123456" "@" "TXT" "0" "test" ]) ]).

Definition updateRecord : Record_ := mkRecord "" "@" "TXT" "0" "test".

(** A stand-in for the formatting of floating-point numbers, where a concrete
    one is needed: every literal is written back as it was read. *)
Definition sameLiteral (n : number) : option number := Some n.

(** *** Further scenarios *)

(** An envelope that reports a failure. *)
Definition failureReply : value :=
  JObj [ ("status", JStr "error");
         ("statuscode", JNum (Int 4013));
         ("longmessage", JStr "The session id is not in a valid format.");
         ("responsedata", JStr "") ].

(** An envelope with status code 2000 and no payload, and one whose payload
    is [null]. *)
Definition noPayloadReply : value :=
  JObj [ ("statuscode", JNum (Int 2000)) ].

Definition nullPayloadReply : value :=
  JObj [ ("statuscode", JNum (Int 2000)); ("responsedata", JNull) ].

(** A login payload whose key is written in capitals, and one without
    key. *)
Definition capitalsReply : value :=
  envelope "login" "Login successful" "Session has been created successful."
    (JObj [ ("APISESSIONID", JStr "thisisasessionid") ]).

Definition emptyObjectReply : value :=
  envelope "login" "Login successful" "Session has been created successful."
    (JObj []).

(** A record whose id is the single byte 0xFF, which is not valid UTF-8. *)
Definition invalidRecord : Record_ :=
  {| ID := String "255" EmptyString; Hostname := "@"; Type_ := "A";
     Priority := "0"; Destination := "127.0.0.1"; DeleteRecord := false;
     State := "yes" |}.

(** *** Further vocabulary *)

(** From world [w] to world [w'] at most one request was sent, by the
    [http.Client] of the client of [w], to its endpoint, as JSON; the
    requests sent before are still on the wire. *)
Definition atMostOneCall (w w' : World) : Prop :=
  transport w' = transport w
  /\ (wire w' = wire w
      \/ exists ex,
           wire w' = wire w ++ [ex]
           /\ via ex = httpClient (client w)
           /\ url ex = endpoint (client w)
           /\ contentType ex = "application/json").

(** A record as a response holds it: an object with the seven members, the
    strings as they are read from the text. *)
Definition recordTree (r : Record_) : value :=
  JObj [ ("id", JStr (ID r));
         ("hostname", JStr (Hostname r));
         ("type", JStr (Type_ r));
         ("priority", JStr (Priority r));
         ("destination", JStr (Destination r));
         ("deleterecord", JBool (DeleteRecord r));
         ("state", JStr (State r)) ].

(** A key matches the field [dnsrecords] of the payload. *)
Definition matchesRecords (k : string) : Prop :=
  foldName k = foldName "dnsrecords".

(** A record on the wire of [UpdateRecords]: the record went through a map,
    so its members are written in the order of their keys. *)
Definition recordWire (r : Record_) : value :=
  JObj [ ("deleterecord", JBool (DeleteRecord r));
         ("destination", marshalString (Destination r));
         ("hostname", marshalString (Hostname r));
         ("id", marshalString (ID r));
         ("priority", marshalString (Priority r));
         ("state", marshalString (State r));
         ("type", marshalString (Type_ r)) ].

Definition recordsWire (rs : option (list Record_)) : value :=
  match rs with
  | None => JNull
  | Some l => JArr (map recordWire l)
  end.

(** The request of client [c] for [action], its [param] object holding the
    common request data of [c] and the members [extra] in the places given:
    [before] stands before [apisessionid], [after] after [customernumber]. *)
Definition sessionMember (c : Client) : list (string * value) :=
  if sessionID c =? "" then [] else [("apisessionid", marshalString (sessionID c))].

Definition requestOf (c : Client) (action : string)
    (before after : list (string * value)) : Exchange :=
  {| via := httpClient c;
     url := endpoint c;
     contentType := "application/json";
     sent :=
       JObj [ ("action", marshalString action);
              ("param",
               JObj ([("apikey", marshalString (apiKey c))]
                     ++ before
                     ++ sessionMember c
                     ++ [("customernumber", JNum (Int (customerNumber c)))]
                     ++ after)) ] |}.

(** The keys of a map are strictly increasing. *)
Fixpoint sortedKeys {V : Type} (m : list (string * V)) : bool :=
  match m with
  | [] => true
  | (k, _) :: rest =>
      match rest with
      | [] => true
      | (k', _) :: _ =>
          match String.compare k k' with
          | Lt => sortedKeys rest
          | _ => false
          end
      end
  end.

(** From world [w] to world [w'] one request was sent, with [apisessionid]
    bound to [token]. *)
Definition sendsSession (token : string) (w w' : World) : Prop :=
  exists ex,
    wire w' = wire w ++ [ex]
    /\ mapaccess "apisessionid" (paramSent ex) = Some (marshalString token).

(** *** Scenarios for the further properties *)

(** A world whose transport refuses every connection. *)
Definition downWorld (session : string) : World :=
  {| client := testClient session;
     transport := fun _ _ => PostFails "connection refused";
     wire := [] |}.

(** An envelope whose status code is written as a string, and one without
    status code. *)
Definition quotedCodeReply : value :=
  JObj [ ("statuscode", JStr "2000");
         ("responsedata", JObj [ ("apisessionid", JStr "thisisasessionid") ]) ].

Definition noCodeReply : value :=
  JObj [ ("longmessage", JStr "Api key missing.") ].

(** A payload that holds the key [dnsrecords] twice: first a record without
    id, then an id alone; and a record to be deleted. *)
Definition repeatedReply : value :=
  envelope "infoDnsRecords" "DNS records found" "DNS Records for this zone were found."
    (JObj [ ("dnsrecords", JArr [ JObj [ ("hostname", JStr "a") ] ]);
            ("dnsrecords", JArr [ JObj [ ("id", JStr "3") ] ]) ]).

Definition deletedRecord : Record_ :=
  {| ID := "123456"; Hostname := "@"; Type_ := "TXT"; Priority := "0";
     Destination := "test"; DeleteRecord := true; State := "no" |}.

Definition deletedReply : value :=
  envelope "infoDnsRecords" "DNS records found" "DNS Records for this zone were found."
    (JObj [ ("dnsrecords", JArr (map recordTree [deletedRecord])) ]).

(** A record with a member the package does not know. *)
Definition recordWithTTL : list (string * value) :=
  [ ("id", JStr "123451"); ("hostname", JStr "@"); ("ttl", JNum (Int 300));
    ("type", JStr "A"); ("priority", JStr "0"); ("destination", JStr "127.0.0.1");
    ("deleterecord", JBool false); ("state", JStr "yes") ].

End netcup.

(* ================================================================== *)
(** * Properties *)

(** ** Strings, UTF-8 and maps *)

Module json_facts.
Import json.

Lemma append_empty_r (s : string) : String.append s EmptyString = s.
Proof. induction s as [|a s IH]; simpl; [reflexivity | now rewrite IH]. Qed.

Lemma ValidString_step (b0 : ascii) (s1 : string) :
  utf8.ValidString (String b0 s1) =
  match utf8.DecodeRuneInString (String b0 s1), s1 with
  | Some 1, _ => utf8.ValidString s1
  | Some 2, String _ s2 => utf8.ValidString s2
  | Some 3, String _ (String _ s3) => utf8.ValidString s3
  | Some 4, String _ (String _ (String _ s4)) => utf8.ValidString s4
  | _, _ => false
  end.
Proof. reflexivity. Qed.

Lemma appendString_step (b0 : ascii) (s1 : string) :
  appendString (String b0 s1) =
  match utf8.DecodeRuneInString (String b0 s1), s1 with
  | Some 1, _ => String b0 (appendString s1)
  | Some 2, String b1 s2 => String b0 (String b1 (appendString s2))
  | Some 3, String b1 (String b2 s3) =>
      String b0 (String b1 (String b2 (appendString s3)))
  | Some 4, String b1 (String b2 (String b3 s4)) =>
      String b0 (String b1 (String b2 (String b3 (appendString s4))))
  | _, _ => String.append utf8.RuneError (appendString s1)
  end.
Proof. reflexivity. Qed.

(** A valid string is written as it is; by induction on a bound of the
    length, since an encoding takes up to four bytes. *)
Lemma appendString_valid_bounded (n : nat) :
  forall s, String.length s <= n -> utf8.ValidString s = true -> appendString s = s.
Proof.
  induction n as [|n IH]; intros s Hlen Hvalid.
  - destruct s; [reflexivity | simpl in Hlen; lia].
  - destruct s as [|b0 s1]; [reflexivity|].
    rewrite ValidString_step in Hvalid. rewrite appendString_step.
    simpl String.length in Hlen.
    destruct (utf8.DecodeRuneInString (String b0 s1)) as [[|[|[|[|[|k]]]]]|];
      try discriminate.
    + rewrite IH; [reflexivity | lia | assumption].
    + destruct s1 as [|b1 s2]; [discriminate|].
      simpl in Hlen. rewrite IH; [reflexivity | lia | assumption].
    + destruct s1 as [|b1 [|b2 s3]]; try discriminate.
      simpl in Hlen. rewrite IH; [reflexivity | lia | assumption].
    + destruct s1 as [|b1 [|b2 [|b3 s4]]]; try discriminate.
      simpl in Hlen. rewrite IH; [reflexivity | lia | assumption].
Qed.

Lemma appendString_valid (s : string) :
  utf8.ValidString s = true -> appendString s = s.
Proof. apply (appendString_valid_bounded (String.length s)). lia. Qed.

(** [strings.Contains] finds a string between any two others. *)
Lemma prefix_append (x suf : string) : prefix x (String.append x suf) = true.
Proof.
  induction x as [|a x IH]; simpl.
  - destruct suf; reflexivity.
  - destruct (ascii_dec a a) as [_|Hne]; [exact IH | now elim Hne].
Qed.

Lemma Contains_prefix (s x : string) : prefix x s = true -> Contains s x = true.
Proof. intros H. destruct s; cbn [Contains]; rewrite H; reflexivity. Qed.

Lemma Contains_append (pre x suf : string) :
  Contains (String.append pre (String.append x suf)) x = true.
Proof.
  induction pre as [|a pre IH].
  - change (Contains (String.append x suf) x = true).
    apply Contains_prefix, prefix_append.
  - cbn [String.append Contains]. rewrite IH. apply orb_true_r.
Qed.

Lemma Contains_append_l (pre s x : string) :
  Contains s x = true -> Contains (String.append pre s) x = true.
Proof.
  intros H. induction pre as [|a pre IH]; [exact H|].
  cbn [String.append Contains]. rewrite IH. apply orb_true_r.
Qed.

Lemma Contains_suffix (pre x : string) : Contains (String.append pre x) x = true.
Proof.
  rewrite <- (append_empty_r x) at 1. apply Contains_append.
Qed.

(** *** UTF-8 *)

(** The width of an encoding is read off its own bytes. *)
Lemma decode_1 (b0 : ascii) (s t : string) :
  utf8.DecodeRuneInString (String b0 s) = Some 1 ->
  utf8.DecodeRuneInString (String b0 t) = Some 1.
Proof.
  unfold utf8.DecodeRuneInString.
  destruct (utf8.first b0) as [[[[|[|[|[|[|n]]]]] lo] hi]|]; intros H;
    try discriminate; try reflexivity;
    destruct s as [|b1 [|b2 [|b3 s]]]; try discriminate;
    repeat match type of H with
           | context [if ?c then _ else _] => destruct c
           end; discriminate.
Qed.

Lemma decode_2 (b0 b1 : ascii) (s t : string) :
  utf8.DecodeRuneInString (String b0 (String b1 s)) = Some 2 ->
  utf8.DecodeRuneInString (String b0 (String b1 t)) = Some 2.
Proof.
  unfold utf8.DecodeRuneInString.
  destruct (utf8.first b0) as [[[[|[|[|[|[|n]]]]] lo] hi]|]; intros H;
    try discriminate; try exact H;
    destruct s as [|b2 [|b3 s]]; try discriminate;
    repeat match type of H with
           | context [if ?c then _ else _] => destruct c
           end; discriminate.
Qed.

Lemma decode_3 (b0 b1 b2 : ascii) (s t : string) :
  utf8.DecodeRuneInString (String b0 (String b1 (String b2 s))) = Some 3 ->
  utf8.DecodeRuneInString (String b0 (String b1 (String b2 t))) = Some 3.
Proof.
  unfold utf8.DecodeRuneInString.
  destruct (utf8.first b0) as [[[[|[|[|[|[|n]]]]] lo] hi]|]; intros H;
    try discriminate; try exact H;
    try (destruct (utf8.between lo hi b1); discriminate);
    destruct s as [|b3 s]; try discriminate;
    repeat match type of H with
           | context [if ?c then _ else _] => destruct c
           end; discriminate.
Qed.

Lemma decode_4 (b0 b1 b2 b3 : ascii) (s t : string) :
  utf8.DecodeRuneInString (String b0 (String b1 (String b2 (String b3 s)))) = Some 4 ->
  utf8.DecodeRuneInString (String b0 (String b1 (String b2 (String b3 t)))) = Some 4.
Proof.
  unfold utf8.DecodeRuneInString.
  destruct (utf8.first b0) as [[[[|[|[|[|[|n]]]]] lo] hi]|]; intros H;
    try discriminate; try exact H;
    repeat match type of H with
           | context [if ?c then _ else _] => destruct c
           end; discriminate.
Qed.

Lemma ValidString_RuneError (t : string) :
  utf8.ValidString (String.append utf8.RuneError t) = utf8.ValidString t.
Proof. reflexivity. Qed.

Lemma appendString_is_valid_bounded (n : nat) :
  forall s, String.length s <= n -> utf8.ValidString (appendString s) = true.
Proof.
  induction n as [|n IH]; intros s Hlen.
  - destruct s; [reflexivity | simpl in Hlen; lia].
  - destruct s as [|b0 s1]; [reflexivity|].
    simpl String.length in Hlen.
    rewrite appendString_step.
    assert (Hbad : utf8.ValidString
                     (String.append utf8.RuneError (appendString s1)) = true).
    { rewrite ValidString_RuneError. apply IH. lia. }
    destruct (utf8.DecodeRuneInString (String b0 s1))
      as [[|[|[|[|[|k]]]]]|] eqn:Hd; try exact Hbad.
    + rewrite ValidString_step, (decode_1 _ _ _ Hd). apply IH. lia.
    + destruct s1 as [|b1 s2]; [exact Hbad|]. simpl in Hlen.
      rewrite ValidString_step, (decode_2 _ _ _ _ Hd). apply IH. lia.
    + destruct s1 as [|b1 [|b2 s3]]; try exact Hbad. simpl in Hlen.
      rewrite ValidString_step, (decode_3 _ _ _ _ _ Hd). apply IH. lia.
    + destruct s1 as [|b1 [|b2 [|b3 s4]]]; try exact Hbad. simpl in Hlen.
      rewrite ValidString_step, (decode_4 _ _ _ _ _ _ Hd). apply IH. lia.
Qed.

Lemma appendString_is_valid (s : string) :
  utf8.ValidString (appendString s) = true.
Proof. apply (appendString_is_valid_bounded (String.length s)). lia. Qed.

Lemma appendString_idempotent (s : string) :
  appendString (appendString s) = appendString s.
Proof. apply appendString_valid, appendString_is_valid. Qed.

(** *** Arrays and slices *)

(** Decoding the elements of an array keeps their number and their order:
    the value at each place is decoded from the element at that place, into
    some earlier value. *)
Lemma array_Forall2 {T : Type} (zero : T) (elem : value -> T -> error + T) :
  forall elems backing vs,
    array zero elem elems backing = inr vs ->
    Forall2 (fun j v => exists old, elem j old = inr v) elems vs.
Proof.
  induction elems as [|x rest IH]; intros backing vs H; simpl in H.
  - injection H as <-. constructor.
  - destruct (elem x (hd zero backing)) as [e|v] eqn:Hx; [discriminate|].
    destruct (array zero elem rest (tl backing)) as [e|vs'] eqn:Hrest; [discriminate|].
    injection H as <-. constructor; [now exists (hd zero backing) | now apply (IH (tl backing))].
Qed.

(** Into a slice without backing array, every element is decoded into the
    zero value. *)
Lemma array_fresh_Forall2 {T : Type} (zero : T) (elem : value -> T -> error + T) :
  forall elems vs,
    array zero elem elems [] = inr vs ->
    Forall2 (fun j v => elem j zero = inr v) elems vs.
Proof.
  induction elems as [|x rest IH]; intros vs H; simpl in H.
  - injection H as <-. constructor.
  - destruct (elem x zero) as [e|v] eqn:Hx; [discriminate|].
    destruct (array zero elem rest []) as [e|vs'] eqn:Hrest; [discriminate|].
    injection H as <-. constructor; [assumption | now apply IH].
Qed.

(** Elements that decode to the same value whatever they are decoded into
    give these values, whatever the slice held. *)
Lemma array_overwrite {T A : Type} (zero : T) (elem : value -> T -> error + T)
    (tree : A -> value) (get : A -> T) :
  (forall a old, elem (tree a) old = inr (get a)) ->
  forall l backing, array zero elem (map tree l) backing = inr (map get l).
Proof.
  intros Hall. induction l as [|a l IH]; intros backing; [reflexivity|].
  cbn [map array]. now rewrite Hall, IH.
Qed.

Lemma storeSlice_elements {T : Type} (typeName : string) (zero : T)
    (elem : value -> T -> error + T) (elems : list value) (old : slice T) (vs : list T) :
  array zero elem elems (backingOf old) = inr vs ->
  exists s, storeSlice typeName zero elem (JArr elems) old = inr s
            /\ elements s = Some vs.
Proof.
  intros H. unfold storeSlice. destruct elems as [|x rest].
  - cbn [array] in H. injection H as <-. eexists. split; reflexivity.
  - rewrite H. eexists. split; reflexivity.
Qed.

Lemma storeSlice_array {T : Type} (typeName : string) (zero : T)
    (elem : value -> T -> error + T) (elems : list value) (old s : slice T) :
  storeSlice typeName zero elem (JArr elems) old = inr s ->
  exists vs, elements s = Some vs
             /\ array zero elem elems (backingOf old) = inr vs.
Proof.
  unfold storeSlice. destruct elems as [|x rest].
  - intros H. injection H as <-. now exists [].
  - destruct (array zero elem (x :: rest) (backingOf old)) as [e|vs]; [discriminate|].
    intros H. injection H as <-. now exists vs.
Qed.

(** *** Objects *)

(** The field a key is stored into has the name of the key, up to case
    folding. *)
Lemma findField_some {T : Type} (fields : list (@field T)) (k : string) (f : @field T) :
  findField fields k = Some f ->
  In f fields /\ foldName (fst f) = foldName k.
Proof.
  unfold findField.
  destruct (find (fun f0 => fst f0 =? k) fields) as [f0|] eqn:Hexact.
  - intros H. injection H as <-. apply find_some in Hexact.
    destruct Hexact as [Hin Heq]. apply String.eqb_eq in Heq.
    split; [exact Hin | now rewrite Heq].
  - intros Hfold. apply find_some in Hfold. destruct Hfold as [Hin Heq].
    apply String.eqb_eq in Heq. now split.
Qed.

Lemma find_all_false {A : Type} (p : A -> bool) (l : list A) :
  (forall x, In x l -> p x = false) -> find p l = None.
Proof.
  induction l as [|a l IH]; intros H; [reflexivity|].
  cbn [find]. rewrite (H a (or_introl eq_refl)). apply IH.
  intros x Hx. apply H. now right.
Qed.

Lemma findField_none {T : Type} (fields : list (@field T)) (k : string) :
  (forall name, In name (map fst fields) -> foldName name <> foldName k) ->
  findField fields k = None.
Proof.
  intros H. unfold findField.
  assert (Hno : forall f, In f fields -> foldName (fst f) <> foldName k)
    by (intros f Hf; apply H, in_map, Hf).
  rewrite find_all_false.
  - apply find_all_false. intros f Hf. apply String.eqb_neq. now apply Hno.
  - intros f Hf. apply String.eqb_neq. intros Heq. apply (Hno f Hf). now rewrite Heq.
Qed.

(** A member whose key matches no field can be taken out of an object. *)
Lemma object_skip {T : Type} (fields : list (@field T)) (k : string) (x : value) :
  findField fields k = None ->
  forall l1 l2 v,
    object fields (l1 ++ (k, x) :: l2) v = object fields (l1 ++ l2) v.
Proof.
  intros Hnone. induction l1 as [|[k1 x1] l1 IH]; intros l2 v.
  - cbn [app object]. now rewrite Hnone.
  - cbn [app object]. destruct (findField fields k1) as [f|]; [|apply IH].
    destruct (snd f x1 v); [reflexivity | apply IH].
Qed.

(** The members of an object are decoded one part after the other. *)
Lemma object_app {T : Type} (fields : list (@field T)) (l1 l2 : list (string * value)) :
  forall v,
    object fields (l1 ++ l2) v =
    match object fields l1 v with
    | inl e => inl e
    | inr v' => object fields l2 v'
    end.
Proof.
  induction l1 as [|[k x] l1 IH]; intros v; [reflexivity|].
  cbn [app object]. destruct (findField fields k) as [f|]; [|apply IH].
  destruct (snd f x v); [reflexivity | apply IH].
Qed.

(** Members none of whose keys matches a field leave the value as it is. *)
Lemma object_unknown {T : Type} (fields : list (@field T)) (l : list (string * value)) :
  (forall k x, In (k, x) l ->
     forall name, In name (map fst fields) -> foldName name <> foldName k) ->
  forall v, object fields l v = inr v.
Proof.
  induction l as [|[k x] l IH]; intros Hno v; [reflexivity|].
  cbn [object]. rewrite (findField_none fields k (Hno k x (or_introl eq_refl))).
  apply IH. intros k0 x0 Hin. apply (Hno k0 x0). now right.
Qed.

(** A struct with one field: the keys that match the field are the keys that
    are equal to its name under case folding. *)
Lemma findField_single {T : Type} (f : @field T) (k : string) :
  foldName k = foldName (fst f) -> findField [f] k = Some f.
Proof.
  intros Hfold. unfold findField. cbn [find].
  destruct (fst f =? k); [reflexivity|].
  rewrite Hfold, String.eqb_refl. reflexivity.
Qed.

End json_facts.

(** ** The package *)

Module netcup_facts.
Import json netcup json_facts.

Section Facts.
Variable float64 : number -> option number.

(** *** The shape of [request] *)

(** [request] checks the session, converts the parameter, sends one
    request and concludes from the reply. *)
Lemma request_eq (action : string) (param : option Param) (w : World) :
  request float64 action param w =
  if (sessionID (client w) =? "") && negb (action =? "login")
  then (err noSession, w)
  else
    match flatten float64 param with
    | inl e => (err e, w)
    | inr None => (panic "assignment to entry in nil map", w)
    | inr (Some m) =>
        let ex := exchangeOf (client w) action m in
        (conclude action (transport w (wire w) ex), afterPost ex w)
    end.
Proof.
  unfold request, bind, getClient.
  destruct ((sessionID (client w) =? "") && negb (action =? "login")) eqn:Hpre;
    [reflexivity|].
  destruct (flatten float64 param) as [e|[m|]]; cbn [try fail ret assign throw];
    try reflexivity.
  unfold exchangeOf, commonData, conclude.
  destruct (negb (sessionID (client w) =? "")); cbn [assign ret ifaceOfMap];
    unfold Post;
    match goal with
    | |- context [transport w (wire w) ?ex] =>
        destruct (transport w (wire w) ex) as [msg|[msg|b]]
    end; cbn [ReadAll fail ret]; try reflexivity;
    (destruct (unmarshalResponseBody b zeroResponseBody) as [e|r];
     cbn [try fail ret]; [reflexivity|];
     destruct (negb (StatusCode r =? 2000)%Z); reflexivity).
Qed.

(** *** Converting the parameters to maps *)

Lemma valueInterface_array (elems : list value) :
  valueInterface float64 (JArr elems) =
  match arrayInterface float64 elems with
  | inl e => inl e
  | inr vs => inr (IfSlice vs)
  end.
Proof. reflexivity. Qed.

Lemma valueInterface_record (r : Record_) :
  valueInterface float64 (marshalRecord r) = inr (recordInterface r).
Proof. reflexivity. Qed.

Lemma arrayInterface_cons (x : value) (rest : list value) :
  arrayInterface float64 (x :: rest) =
  match valueInterface float64 x with
  | inl e => inl e
  | inr v =>
      match arrayInterface float64 rest with
      | inl e => inl e
      | inr vs => inr (v :: vs)
      end
  end.
Proof. reflexivity. Qed.

Lemma arrayInterface_records (l : list Record_) :
  arrayInterface float64 (map marshalRecord l) = inr (map recordInterface l).
Proof.
  induction l as [|r l IH]; [reflexivity|].
  cbn [map]. rewrite arrayInterface_cons, valueInterface_record, IH. reflexivity.
Qed.

Lemma valueInterface_records (rs : option (list Record_)) :
  valueInterface float64 (marshalRecords rs) = inr (recordsInterface rs).
Proof.
  destruct rs as [l|]; [|reflexivity].
  unfold marshalRecords, recordsInterface.
  rewrite valueInterface_array, arrayInterface_records. reflexivity.
Qed.

Lemma valueInterface_object (members : list (string * value)) :
  valueInterface float64 (JObj members) =
  match objectMap float64 members [] with
  | inl e => inl e
  | inr m => inr (IfMap m)
  end.
Proof. reflexivity. Qed.

Lemma valueInterface_recordSet (rs : option (list Record_)) :
  valueInterface float64 (JObj [("dnsrecords", marshalRecords rs)]) =
  inr (IfMap [("dnsrecords", recordsInterface rs)]).
Proof.
  rewrite valueInterface_object. cbn [objectMap].
  rewrite valueInterface_records. reflexivity.
Qed.

Lemma flatten_eq (param : option Param) :
  flatten float64 param = inr (Some (paramMapOf param)).
Proof.
  destruct param as [[pw|d|d rs]|]; try reflexivity.
  unfold flatten, marshalParam, unmarshalMap.
  cbn [objectMap].
  change (valueInterface float64 (marshalString d))
    with (@inr error iface (IfString (appendString d))).
  cbv iota. rewrite valueInterface_recordSet. reflexivity.
Qed.

(** With the parameters of the package, [request] either stops at the
    session check or sends exactly one request. *)
Lemma request_dispatch (action : string) (param : option Param) (w : World) :
  request float64 action param w =
  if (sessionID (client w) =? "") && negb (action =? "login")
  then (err noSession, w)
  else
    let ex := exchangeOf (client w) action (paramMapOf param) in
    (conclude action (transport w (wire w) ex), afterPost ex w).
Proof. rewrite request_eq, flatten_eq. reflexivity. Qed.


Lemma request_client (action : string) (param : option Param) (w : World) :
  client (snd (request float64 action param w)) = client w.
Proof.
  rewrite request_dispatch.
  destruct ((sessionID (client w) =? "") && negb (action =? "login")); reflexivity.
Qed.

Lemma request_transport (action : string) (param : option Param) (w : World) :
  transport (snd (request float64 action param w)) = transport w.
Proof.
  rewrite request_dispatch.
  destruct ((sessionID (client w) =? "") && negb (action =? "login")); reflexivity.
Qed.

Lemma request_no_session (action : string) (param : option Param) (w : World) :
  sessionID (client w) = "" -> action <> "login" ->
  request float64 action param w = (err noSession, w).
Proof.
  intros Hs Ha. rewrite request_dispatch, Hs.
  apply String.eqb_neq in Ha. rewrite Ha. reflexivity.
Qed.

(** Each operation starts with [request]. *)
Ltac by_request H :=
  unfold Login, Logout, GetRecords, UpdateRecords, bind;
  rewrite H; reflexivity.

Lemma operations_no_session (w : World) :
  sessionID (client w) = "" ->
  (forall action param, action <> "login" ->
     request float64 action param w = (err noSession, w))
  /\ Logout float64 w = (err noSession, w)
  /\ (forall d, GetRecords float64 d w = (err noSession, w))
  /\ (forall d rs, UpdateRecords float64 d rs w = (err noSession, w)).
Proof.
  intros Hs.
  assert (Hreq : forall action param, action <> "login" ->
            request float64 action param w = (err noSession, w))
    by (intros; now apply request_no_session).
  split; [exact Hreq|].
  split; [by_request (Hreq "logout" None ltac:(discriminate))|].
  split; [intros d;
          by_request (Hreq "infoDnsRecords" (Some (infoParam d)) ltac:(discriminate))|].
  intros d rs.
  by_request (Hreq "updateDnsRecords" (Some (updateParam d {| Records := rs |}))
                ltac:(discriminate)).
Qed.

(** *** C1 *)

(** C1.  When the session token of the client is empty, [request] with an
    action other than "login" returns the unauthenticated error and leaves
    the world as it is: nothing is added to the wire, no request is sent.
    So do [Logout], [GetRecords] and [UpdateRecords].  With the action
    "login", [request] goes on: exactly one request is sent. *)
Theorem C1_unauthenticated (w : World) :
  sessionID (client w) = "" ->
  (forall action param, action <> "login" ->
     request float64 action param w = (err noSession, w))
  /\ Logout float64 w = (err noSession, w)
  /\ (forall d, GetRecords float64 d w = (err noSession, w))
  /\ (forall d rs, UpdateRecords float64 d rs w = (err noSession, w))
  /\ (forall param,
        wire (snd (request float64 "login" param w)) =
        wire w ++ [exchangeOf (client w) "login" (paramMapOf param)]).
Proof.
  intros Hs.
  destruct (operations_no_session w Hs) as (H1 & H2 & H3 & H4).
  repeat split; try assumption.
  intros param. rewrite request_dispatch, Hs. reflexivity.
Qed.

(** *** The shape of the four operations *)

Lemma Login_eq (pw : string) (w : World) :
  Login float64 pw w =
  match request float64 "login" (Some (loginParam pw)) w with
  | (ok (Some raw), w1) =>
      match unmarshalLoginData raw {| APISessionID := "" |} with
      | inl e => (err e, w1)
      | inr rd => (ok tt, inWorld (withSessionID (APISessionID rd) (client w1)) w1)
      end
  | (ok None, w1) => (panic nilDereference, w1)
  | (err e, w1) => (err e, w1)
  | (panic msg, w1) => (panic msg, w1)
  end.
Proof.
  unfold Login, bind.
  destruct (request float64 "login" (Some (loginParam pw)) w) as [[[raw|]|e|msg] w1];
    try reflexivity.
  cbn [deref ret].
  destruct (unmarshalLoginData raw {| APISessionID := "" |}); reflexivity.
Qed.

Lemma Logout_eq (w : World) :
  Logout float64 w =
  match request float64 "logout" None w with
  | (ok _, w1) => (ok tt, inWorld (withSessionID "" (client w1)) w1)
  | (err e, w1) => (err e, w1)
  | (panic msg, w1) => (panic msg, w1)
  end.
Proof.
  unfold Logout, bind.
  destruct (request float64 "logout" None w) as [[raw|e|msg] w1]; reflexivity.
Qed.

Lemma GetRecords_eq (d : string) (w : World) :
  GetRecords float64 d w =
  storeRecords (request float64 "infoDnsRecords" (Some (infoParam d)) w).
Proof.
  unfold GetRecords, storeRecords, bind.
  destruct (request float64 "infoDnsRecords" (Some (infoParam d)) w)
    as [[[raw|]|e|msg] w1]; try reflexivity.
  cbn [deref ret].
  destruct (unmarshalRecordsData raw zeroRecordsData); reflexivity.
Qed.

Lemma UpdateRecords_eq (d : string) (rs : option (list Record_)) (w : World) :
  UpdateRecords float64 d rs w =
  storeRecords
    (request float64 "updateDnsRecords" (Some (updateParam d {| Records := rs |})) w).
Proof.
  unfold UpdateRecords, storeRecords, bind.
  destruct (request float64 "updateDnsRecords"
              (Some (updateParam d {| Records := rs |})) w)
    as [[[raw|]|e|msg] w1]; try reflexivity.
  cbn [deref ret].
  destruct (unmarshalRecordsData raw zeroRecordsData); reflexivity.
Qed.

Lemma storeRecords_session (out : result (option value) * World) :
  sessionID (client (snd (storeRecords out))) = sessionID (client (snd out)).
Proof.
  destruct out as [[[raw|]|e|msg] w1]; try reflexivity.
  unfold storeRecords.
  destruct (unmarshalRecordsData raw zeroRecordsData); reflexivity.
Qed.

(** *** C2 *)

Lemma app_one_neq {A : Type} (l : list A) (x : A) : l <> l ++ [x].
Proof.
  intros H. apply (f_equal (@List.length A)) in H.
  rewrite length_app in H. simpl in H. lia.
Qed.

(** An operation leaves the wire and the transport as its [request] left
    them. *)
Lemma Login_world (pw : string) (w : World) :
  wire (snd (Login float64 pw w))
  = wire (snd (request float64 "login" (Some (loginParam pw)) w))
  /\ transport (snd (Login float64 pw w))
     = transport (snd (request float64 "login" (Some (loginParam pw)) w)).
Proof.
  rewrite Login_eq.
  destruct (request float64 "login" (Some (loginParam pw)) w)
    as [[[raw|]|e|msg] w1]; try (split; reflexivity).
  destruct (unmarshalLoginData raw {| APISessionID := "" |}); split; reflexivity.
Qed.

Lemma Logout_world (w : World) :
  wire (snd (Logout float64 w)) = wire (snd (request float64 "logout" None w))
  /\ transport (snd (Logout float64 w))
     = transport (snd (request float64 "logout" None w)).
Proof.
  rewrite Logout_eq.
  destruct (request float64 "logout" None w) as [[raw|e|msg] w1]; split; reflexivity.
Qed.

Lemma storeRecords_world (out : result (option value) * World) :
  wire (snd (storeRecords out)) = wire (snd out)
  /\ transport (snd (storeRecords out)) = transport (snd out).
Proof.
  destruct out as [[[raw|]|e|msg] w1]; try (split; reflexivity).
  unfold storeRecords.
  destruct (unmarshalRecordsData raw zeroRecordsData); split; reflexivity.
Qed.

(** What [request] returns when the session check is passed. *)
Lemma request_concluded (action : string) (param : option Param) (w : World) :
  sessionID (client w) <> "" \/ action = "login" ->
  request float64 action param w =
  (conclude action
     (transport w (wire w) (exchangeOf (client w) action (paramMapOf param))),
   afterPost (exchangeOf (client w) action (paramMapOf param)) w).
Proof.
  intros Hpre. rewrite request_dispatch.
  replace ((sessionID (client w) =? "") && negb (action =? "login")) with false;
    [reflexivity|].
  symmetry. destruct Hpre as [Hs| ->].
  - apply String.eqb_neq in Hs. now rewrite Hs.
  - apply andb_false_r.
Qed.

Lemma request_wire (action : string) (param : option Param) (w : World) :
  sessionID (client w) <> "" \/ action = "login" ->
  wire (snd (request float64 action param w))
  = wire w ++ [exchangeOf (client w) action (paramMapOf param)].
Proof. intros Hpre. rewrite (request_concluded action param w Hpre). reflexivity. Qed.

Lemma marshalInterface_record (r : Record_) :
  marshalInterface (recordInterface r) = recordWire r.
Proof.
  unfold recordInterface, recordWire.
  cbn [marshalInterface map fst snd]. unfold marshalString.
  rewrite !appendString_idempotent. reflexivity.
Qed.

Lemma marshalInterface_records (rs : option (list Record_)) :
  marshalInterface (recordsInterface rs) = recordsWire rs.
Proof.
  destruct rs as [l|]; [|reflexivity].
  unfold recordsInterface, recordsWire. cbn [marshalInterface]. f_equal.
  rewrite map_map. apply map_ext. intros r. apply marshalInterface_record.
Qed.

(** The members a parameter adds to the [param] object, before and after the
    common request data. *)
Lemma exchangeOf_eq (c : Client) (action : string) (param : option Param) :
  exchangeOf c action (paramMapOf param) =
  match param with
  | None => requestOf c action [] []
  | Some (loginParam pw) => requestOf c action [("apipassword", marshalString pw)] []
  | Some (infoParam d) => requestOf c action [] [("domainname", marshalString d)]
  | Some (updateParam d rs) =>
      requestOf c action []
        [ ("dnsrecordset", JObj [("dnsrecords", recordsWire (Records rs))]);
          ("domainname", marshalString d) ]
  end.
Proof.
  unfold exchangeOf, requestOf, commonData, sessionMember, marshalRequestBody.
  cbn [requestBody.Action requestBody.Param].
  destruct param as [[pw|d|d rs]|]; destruct (sessionID c =? ""); cbn [negb];
    try (remember (recordsInterface (Records rs)) as ri eqn:Hri);
    cbn; unfold marshalString; rewrite ?appendString_idempotent;
    try (rewrite <- marshalInterface_records, <- Hri); reflexivity.
Qed.

Lemma param_sent (c : Client) (action : string) (before after : list (string * value)) :
  paramSent (requestOf c action before after)
  = [("apikey", marshalString (apiKey c))] ++ before ++ sessionMember c
    ++ [("customernumber", JNum (Int (customerNumber c)))] ++ after.
Proof. reflexivity. Qed.

(** The members of the parameters in the request that [request] sends. *)
Lemma caller_members (c : Client) (action : string) :
  (forall pw,
     mapaccess "apipassword"
       (paramSent (exchangeOf c action (paramMapOf (Some (loginParam pw)))))
     = Some (marshalString pw))
  /\ (forall d,
        mapaccess "domainname"
          (paramSent (exchangeOf c action (paramMapOf (Some (infoParam d)))))
        = Some (marshalString d))
  /\ (forall d rs,
        mapaccess "domainname"
          (paramSent (exchangeOf c action (paramMapOf (Some (updateParam d rs)))))
        = Some (marshalString d)
        /\ mapaccess "dnsrecordset"
             (paramSent (exchangeOf c action (paramMapOf (Some (updateParam d rs)))))
           = Some (JObj [("dnsrecords", recordsWire (Records rs))])).
Proof.
  repeat split; intros; rewrite exchangeOf_eq, param_sent; unfold sessionMember;
    destruct (sessionID c =? ""); reflexivity.
Qed.

(** C2.  The [param] object of every request that is sent binds
    [customernumber] to the customer number and [apikey] to the API key of
    the client, as [Marshal] writes them; it binds [apisessionid] to the
    session token when the token is not empty and has no such key when it
    is empty; and the members of the parameter of the caller are there, each
    under its key: [apipassword] bound to the password for the parameter of
    [Login], [domainname] bound to the domain name for the parameter of
    [GetRecords], [domainname] and [dnsrecordset], the object that holds the
    records under [dnsrecords], for the parameter of [UpdateRecords].  The
    request is given in full, member by member; and the requests that
    [Login], [GetRecords] and [UpdateRecords] send hold the password, the
    domain name and the records they were called with. *)
Theorem C2_common_request_data
    (action : string) (param : option Param) (w : World) (ex : Exchange) :
  wire (snd (request float64 action param w)) = wire w ++ [ex] ->
  let c := client w in
  let p := paramSent ex in
  sent ex = JObj [("action", marshalString action); ("param", JObj p)]
  /\ mapaccess "customernumber" p = Some (JNum (Int (customerNumber c)))
  /\ mapaccess "apikey" p = Some (marshalString (apiKey c))
  /\ (sessionID c <> "" ->
      mapaccess "apisessionid" p = Some (marshalString (sessionID c)))
  /\ (sessionID c = "" -> mapaccess "apisessionid" p = None)
  /\ (forall k, In k (paramKeys param) ->
      exists v, mapaccess k (paramMapOf param) = Some v
                /\ mapaccess k p = Some (marshalInterface v))
  /\ (forall pw, param = Some (loginParam pw) ->
      mapaccess "apipassword" p = Some (marshalString pw))
  /\ (forall d, param = Some (infoParam d) ->
      mapaccess "domainname" p = Some (marshalString d))
  /\ (forall d rs, param = Some (updateParam d rs) ->
      mapaccess "domainname" p = Some (marshalString d)
      /\ mapaccess "dnsrecordset" p
         = Some (JObj [("dnsrecords", recordsWire (Records rs))]))
  /\ ex = match param with
          | None => requestOf c action [] []
          | Some (loginParam pw) =>
              requestOf c action [("apipassword", marshalString pw)] []
          | Some (infoParam d) =>
              requestOf c action [] [("domainname", marshalString d)]
          | Some (updateParam d rs) =>
              requestOf c action []
                [ ("dnsrecordset", JObj [("dnsrecords", recordsWire (Records rs))]);
                  ("domainname", marshalString d) ]
          end
  /\ (forall pw ex',
        wire (snd (Login float64 pw w)) = wire w ++ [ex'] ->
        mapaccess "apipassword" (paramSent ex') = Some (marshalString pw))
  /\ (forall d ex',
        wire (snd (GetRecords float64 d w)) = wire w ++ [ex'] ->
        mapaccess "domainname" (paramSent ex') = Some (marshalString d))
  /\ (forall d rs ex',
        wire (snd (UpdateRecords float64 d rs w)) = wire w ++ [ex'] ->
        mapaccess "domainname" (paramSent ex') = Some (marshalString d)
        /\ mapaccess "dnsrecordset" (paramSent ex')
           = Some (JObj [("dnsrecords", recordsWire rs)])).
Proof.
  intros Hwire c p. subst c p.
  assert (Hsent : forall action0 param0 ex0,
             wire (snd (request float64 action0 param0 w)) = wire w ++ [ex0] ->
             ex0 = exchangeOf (client w) action0 (paramMapOf param0)).
  { intros action0 param0 ex0 H. rewrite request_dispatch in H.
    destruct ((sessionID (client w) =? "") && negb (action0 =? "login")).
    - exfalso. exact (app_one_neq _ _ H).
    - cbn [snd afterPost wire] in H. apply app_inv_head in H. now injection H. }
  destruct (caller_members (client w) action) as (Hlogin & Hinfo & Hupdate).
  rewrite (Hsent action param ex Hwire).
  split; [|split; [|split; [|split; [|split; [|split; [|split; [|split; [|split]]]]]]]].
  - rewrite exchangeOf_eq.
    destruct param as [[pw|d|d rs]|]; reflexivity.
  - rewrite exchangeOf_eq.
    destruct param as [[pw|d|d rs]|]; rewrite param_sent; unfold sessionMember;
      destruct (sessionID (client w) =? ""); reflexivity.
  - rewrite exchangeOf_eq.
    destruct param as [[pw|d|d rs]|]; reflexivity.
  - intros Hs. apply String.eqb_neq in Hs. rewrite exchangeOf_eq.
    destruct param as [[pw|d|d rs]|]; rewrite param_sent; unfold sessionMember;
      rewrite Hs; reflexivity.
  - intros Hs. rewrite exchangeOf_eq.
    destruct param as [[pw|d|d rs]|]; rewrite param_sent; unfold sessionMember;
      rewrite Hs; reflexivity.
  - unfold exchangeOf, paramSent, commonData, marshalRequestBody.
    cbn [sent requestBody.Action requestBody.Param].
    destruct (sessionID (client w) =? ""); cbn [negb];
      destruct param as [[pw|d|d rs]|]; cbn;
      intros k Hk; repeat (destruct Hk as [<-|Hk]; [eexists; split; reflexivity|]);
      destruct Hk.
  - intros pw ->. apply Hlogin.
  - intros d ->. apply Hinfo.
  - intros d rs ->. apply Hupdate.
  - split; [apply exchangeOf_eq|].
    split; [|split].
    + intros pw ex' H. rewrite (proj1 (Login_world pw w)) in H.
      rewrite (Hsent _ _ _ H). apply (caller_members (client w) "login").
    + intros d ex' H. rewrite GetRecords_eq, (proj1 (storeRecords_world _)) in H.
      rewrite (Hsent _ _ _ H). apply (caller_members (client w) "infoDnsRecords").
    + intros d rs ex' H. rewrite UpdateRecords_eq, (proj1 (storeRecords_world _)) in H.
      rewrite (Hsent _ _ _ H).
      apply (proj2 (proj2 (caller_members (client w) "updateDnsRecords")) d
               {| Records := rs |}).
Qed.

(** *** C3 *)

(** C3.  A [Login] whose [request] succeeds and whose payload decodes sets
    the session token to the [apisessionid] decoded, whatever it was; a
    [Logout] whose [request] succeeds sets it to the empty string, whatever
    the payload is (a nil pointer included); a [Login] and a [Logout] that
    return an error leave it as it was; and nothing else changes it:
    [request], [GetRecords] and [UpdateRecords] always leave it as it
    was. *)
Theorem C3_session_transitions (w : World) :
  (forall pw raw rd w1,
      request float64 "login" (Some (loginParam pw)) w = (ok (Some raw), w1) ->
      unmarshalLoginData raw {| APISessionID := "" |} = inr rd ->
      Login float64 pw w =
        (ok tt, inWorld (withSessionID (APISessionID rd) (client w1)) w1)
      /\ sessionID (client (snd (Login float64 pw w))) = APISessionID rd)
  /\ (forall payload w1,
      request float64 "logout" None w = (ok payload, w1) ->
      Logout float64 w = (ok tt, inWorld (withSessionID "" (client w1)) w1)
      /\ sessionID (client (snd (Logout float64 w))) = "")
  /\ (forall pw e w',
      Login float64 pw w = (err e, w') ->
      sessionID (client w') = sessionID (client w))
  /\ (forall e w',
      Logout float64 w = (err e, w') ->
      sessionID (client w') = sessionID (client w))
  /\ (forall action param,
      sessionID (client (snd (request float64 action param w))) = sessionID (client w))
  /\ (forall d,
      sessionID (client (snd (GetRecords float64 d w))) = sessionID (client w))
  /\ (forall d rs,
      sessionID (client (snd (UpdateRecords float64 d rs w))) = sessionID (client w)).
Proof.
  split; [|split; [|split; [|split; [|split; [|split]]]]].
  - intros pw raw rd w1 Hreq Hdec. rewrite Login_eq, Hreq, Hdec. split; reflexivity.
  - intros payload w1 Hreq. rewrite Logout_eq, Hreq. split; reflexivity.
  - intros pw e w' H. rewrite Login_eq in H.
    pose proof (request_client "login" (Some (loginParam pw)) w) as Hc.
    destruct (request float64 "login" (Some (loginParam pw)) w)
      as [[[raw|]|e1|msg] w1]; cbn [snd] in Hc; try discriminate.
    + destruct (unmarshalLoginData raw {| APISessionID := "" |}); try discriminate.
      injection H as _ <-. now rewrite Hc.
    + injection H as _ <-. now rewrite Hc.
  - intros e w' H. rewrite Logout_eq in H.
    pose proof (request_client "logout" None w) as Hc.
    destruct (request float64 "logout" None w) as [[raw|e1|msg] w1];
      cbn [snd] in Hc; try discriminate.
    injection H as _ <-. now rewrite Hc.
  - intros. now rewrite request_client.
  - intros. now rewrite GetRecords_eq, storeRecords_session, request_client.
  - intros. now rewrite UpdateRecords_eq, storeRecords_session, request_client.
Qed.

(** *** C4 *)

Lemma requestFailed_text (action longMessage : string) :
  exists text,
    requestFailed action longMessage = errorString text
    /\ Contains text action = true
    /\ Contains text longMessage = true.
Proof.
  eexists. split; [reflexivity|]. split.
  - apply (Contains_append_l "Request "), (Contains_append_l quote).
    apply (Contains_append EmptyString).
  - apply (Contains_append_l "Request "), (Contains_append_l quote),
      (Contains_append_l action), (Contains_append_l quote).
    apply (Contains_suffix " failed: ").
Qed.

(** What [request] returns once the session check is passed and the body of
    the response decodes to the envelope [r]. *)
Lemma request_envelope
    (action : string) (param : option Param) (w : World) (b : body) (r : responseBody) :
  (forall ex, transport w (wire w) ex = Responds (Readable b)) ->
  unmarshalResponseBody b zeroResponseBody = inr r ->
  sessionID (client w) <> "" \/ action = "login" ->
  request float64 action param w =
  (if negb (StatusCode r =? 2000)%Z
   then err (requestFailed action (LongMessage r))
   else ok (ResponseData r),
   afterPost (exchangeOf (client w) action (paramMapOf param)) w).
Proof.
  intros Ht Hb Hpre. rewrite request_dispatch.
  replace ((sessionID (client w) =? "") && negb (action =? "login")) with false.
  - cbv zeta. unfold conclude. rewrite Ht, Hb. reflexivity.
  - symmetry. destruct Hpre as [Hs| ->].
    + apply String.eqb_neq in Hs. now rewrite Hs.
    + apply andb_false_r.
Qed.

(** C4.  When the body of the response decodes to an envelope whose status
    code is not 2000, each of the four operations that sent a request
    returns the error [Request "<action>" failed: <longmessage>], whose
    text contains the action and the long message, and leaves the session
    token and the cached records as they were.  When the status code is
    2000, [request] returns the payload of the envelope: the status code
    alone tells success from failure. *)
Theorem C4_api_error (w : World) (b : body) (r : responseBody) :
  (forall ex, transport w (wire w) ex = Responds (Readable b)) ->
  unmarshalResponseBody b zeroResponseBody = inr r ->
  (StatusCode r <> 2000%Z ->
     (forall pw,
        apiFailure "login" (LongMessage r) (client w) (Login float64 pw w))
     /\ (sessionID (client w) <> "" ->
         apiFailure "logout" (LongMessage r) (client w) (Logout float64 w)
         /\ (forall d,
               apiFailure "infoDnsRecords" (LongMessage r) (client w)
                 (GetRecords float64 d w))
         /\ (forall d rs,
               apiFailure "updateDnsRecords" (LongMessage r) (client w)
                 (UpdateRecords float64 d rs w)))
     /\ (forall action,
         exists text,
           requestFailed action (LongMessage r) = errorString text
           /\ Contains text action = true
           /\ Contains text (LongMessage r) = true))
  /\ (StatusCode r = 2000%Z ->
      forall action param,
        sessionID (client w) <> "" \/ action = "login" ->
        fst (request float64 action param w) = ok (ResponseData r)).
Proof.
  intros Ht Hb. split.
  - intros Hcode. apply Z.eqb_neq in Hcode.
    assert (Hreq : forall action param,
               sessionID (client w) <> "" \/ action = "login" ->
               request float64 action param w =
               (err (requestFailed action (LongMessage r)),
                afterPost (exchangeOf (client w) action (paramMapOf param)) w)).
    { intros action param Hpre.
      rewrite (request_envelope action param w b r Ht Hb Hpre), Hcode.
      reflexivity. }
    split; [|split].
    + intros pw. unfold apiFailure.
      rewrite Login_eq, Hreq by (now right). repeat split.
    + intros Hs. unfold apiFailure. split; [|split].
      * rewrite Logout_eq, Hreq by (now left). repeat split.
      * intros d. rewrite GetRecords_eq, Hreq by (now left). repeat split.
      * intros d rs. rewrite UpdateRecords_eq, Hreq by (now left). repeat split.
    + intros action. apply requestFailed_text.
  - intros Hcode action param Hpre.
    rewrite (request_envelope action param w b r Ht Hb Hpre), Hcode.
    reflexivity.
Qed.

(** *** C5 *)

Lemma recordTree_decoded (r old : Record_) :
  unmarshalRecord (recordTree r) old = inr r.
Proof. destruct r; reflexivity. Qed.

Lemma records_field (k : string) :
  matchesRecords k ->
  findField recordsDataFields k = Some (hd ("", fun _ r => inr r) recordsDataFields).
Proof. intros Hk. now apply findField_single. Qed.

Lemma records_unknown (l : list (string * value)) :
  (forall k x, In (k, x) l -> ~ matchesRecords k) ->
  forall v, object recordsDataFields l v = inr v.
Proof.
  intros Hno. apply object_unknown. intros k x Hin name [<-|[]] Heq.
  apply (Hno k x Hin). unfold matchesRecords. now rewrite <- Heq.
Qed.

(** The payload decoded, member by member: what stands before the last
    member that matches [dnsrecords], that member, and the members after
    it. *)
Lemma payload_last_member
    (l1 l2 : list (string * value)) (k : string) (elems : list value) :
  matchesRecords k ->
  (forall k' x, In (k', x) l2 -> ~ matchesRecords k') ->
  unmarshalRecordsData (JObj (l1 ++ (k, JArr elems) :: l2)) zeroRecordsData =
  match object recordsDataFields l1 zeroRecordsData with
  | inl e => inl e
  | inr v1 =>
      match storeSlice "[]netcup.Record" zeroRecord unmarshalRecord
              (JArr elems) (DNSRecords v1) with
      | inl e => inl e
      | inr s => inr {| DNSRecords := s |}
      end
  end.
Proof.
  intros Hk Hno. unfold unmarshalRecordsData, unmarshalStruct.
  rewrite object_app.
  destruct (object recordsDataFields l1 zeroRecordsData) as [e|v1]; [reflexivity|].
  cbn [object]. rewrite (records_field k Hk).
  cbn [hd recordsDataFields snd]. unfold into.
  destruct (storeSlice "[]netcup.Record" zeroRecord unmarshalRecord
              (JArr elems) (DNSRecords v1)) as [e|s]; [reflexivity|].
  now apply records_unknown.
Qed.

Lemma storeRecords_ok (out : result (option value) * World)
    (got : option (list Record_)) (w' : World) :
  storeRecords out = (ok got, w') ->
  records (client w') = got
  /\ exists raw rd,
       fst out = ok (Some raw)
       /\ unmarshalRecordsData raw zeroRecordsData = inr rd
       /\ got = elements (DNSRecords rd).
Proof.
  destruct out as [[[raw|]|e|msg] w1]; intros H; unfold storeRecords in H;
    try discriminate.
  destruct (unmarshalRecordsData raw zeroRecordsData) as [e|rd] eqn:Hdec;
    try discriminate.
  injection H as <- <-. split; [reflexivity|].
  exists raw, rd. repeat split. exact Hdec.
Qed.

(** C5.  When [request] succeeds and the payload decodes, [GetRecords] and
    [UpdateRecords] return the slice decoded from [dnsrecords] and store
    that same slice in the client, whatever was cached before; a call that
    returns a slice has decoded it from the payload and has cached it.  The
    slice comes from the last member of the payload whose key matches
    [dnsrecords]: it has one record for each element of that array, in the
    order of the array, nothing reordered, merged with a neighbour or
    dropped, each record decoded from the element at its place - into the
    zero record when no member before matches [dnsrecords], and when one
    does, into the record an earlier array left at that place.  When the
    elements of the array are records with their seven members, the slice
    holds exactly these records, whatever stands before; and with such a
    payload [GetRecords] and [UpdateRecords] return these records and cache
    them. *)
Theorem C5_records_as_received (w : World) :
  (forall d raw rd w1,
      request float64 "infoDnsRecords" (Some (infoParam d)) w = (ok (Some raw), w1) ->
      unmarshalRecordsData raw zeroRecordsData = inr rd ->
      GetRecords float64 d w =
        (ok (elements (DNSRecords rd)),
         inWorld (withRecords (elements (DNSRecords rd)) (client w1)) w1))
  /\ (forall d rs raw rd w1,
      request float64 "updateDnsRecords"
        (Some (updateParam d {| Records := rs |})) w = (ok (Some raw), w1) ->
      unmarshalRecordsData raw zeroRecordsData = inr rd ->
      UpdateRecords float64 d rs w =
        (ok (elements (DNSRecords rd)),
         inWorld (withRecords (elements (DNSRecords rd)) (client w1)) w1))
  /\ (forall d got w',
      GetRecords float64 d w = (ok got, w') ->
      records (client w') = got
      /\ exists raw rd,
           fst (request float64 "infoDnsRecords" (Some (infoParam d)) w) = ok (Some raw)
           /\ unmarshalRecordsData raw zeroRecordsData = inr rd
           /\ got = elements (DNSRecords rd))
  /\ (forall d rs got w',
      UpdateRecords float64 d rs w = (ok got, w') ->
      records (client w') = got
      /\ exists raw rd,
           fst (request float64 "updateDnsRecords"
                  (Some (updateParam d {| Records := rs |})) w) = ok (Some raw)
           /\ unmarshalRecordsData raw zeroRecordsData = inr rd
           /\ got = elements (DNSRecords rd))
  /\ (forall l1 k elems l2 rd,
      matchesRecords k ->
      (forall k' x, In (k', x) l2 -> ~ matchesRecords k') ->
      unmarshalRecordsData (JObj (l1 ++ (k, JArr elems) :: l2)) zeroRecordsData
        = inr rd ->
      exists got,
        elements (DNSRecords rd) = Some got
        /\ Forall2 (fun j r => exists old, unmarshalRecord j old = inr r) elems got
        /\ ((forall k' x, In (k', x) l1 -> ~ matchesRecords k') ->
            Forall2 (fun j r => unmarshalRecord j zeroRecord = inr r) elems got))
  /\ (forall l1 k rs l2 rd,
      matchesRecords k ->
      (forall k' x, In (k', x) l2 -> ~ matchesRecords k') ->
      unmarshalRecordsData (JObj (l1 ++ (k, JArr (map recordTree rs)) :: l2))
        zeroRecordsData = inr rd ->
      elements (DNSRecords rd) = Some rs)
  /\ (forall l1 k rs l2,
      matchesRecords k ->
      (forall k' x, In (k', x) l1 -> ~ matchesRecords k') ->
      (forall k' x, In (k', x) l2 -> ~ matchesRecords k') ->
      (forall d w1,
         request float64 "infoDnsRecords" (Some (infoParam d)) w
         = (ok (Some (JObj (l1 ++ (k, JArr (map recordTree rs)) :: l2))), w1) ->
         GetRecords float64 d w
         = (ok (Some rs), inWorld (withRecords (Some rs) (client w1)) w1))
      /\ (forall d sent w1,
         request float64 "updateDnsRecords"
           (Some (updateParam d {| Records := sent |})) w
         = (ok (Some (JObj (l1 ++ (k, JArr (map recordTree rs)) :: l2))), w1) ->
         UpdateRecords float64 d sent w
         = (ok (Some rs), inWorld (withRecords (Some rs) (client w1)) w1))).
Proof.
  assert (Hfull : forall rs backing,
             array zeroRecord unmarshalRecord (map recordTree rs) backing = inr rs).
  { intros rs backing.
    rewrite (array_overwrite zeroRecord unmarshalRecord recordTree (fun r => r)
               recordTree_decoded).
    now rewrite map_id. }
  split; [|split; [|split; [|split; [|split; [|split]]]]].
  - intros d raw rd w1 H1 H2. rewrite GetRecords_eq, H1. unfold storeRecords.
    rewrite H2. reflexivity.
  - intros d rs raw rd w1 H1 H2. rewrite UpdateRecords_eq, H1. unfold storeRecords.
    rewrite H2. reflexivity.
  - intros d got w' H. rewrite GetRecords_eq in H. eapply storeRecords_ok, H.
  - intros d rs got w' H. rewrite UpdateRecords_eq in H. eapply storeRecords_ok, H.
  - intros l1 k elems l2 rd Hk Hno Hdec.
    rewrite (payload_last_member l1 l2 k elems Hk Hno) in Hdec.
    destruct (object recordsDataFields l1 zeroRecordsData) as [e|v1] eqn:Hl1;
      [discriminate|].
    destruct (storeSlice "[]netcup.Record" zeroRecord unmarshalRecord
                (JArr elems) (DNSRecords v1)) as [e|s] eqn:Hs; [discriminate|].
    injection Hdec as <-. cbn [DNSRecords].
    destruct (storeSlice_array _ _ _ _ _ _ Hs) as (got & Hgot & Harr).
    exists got. split; [exact Hgot|]. split.
    + exact (array_Forall2 _ _ _ _ _ Harr).
    + intros Hno1. rewrite (records_unknown l1 Hno1) in Hl1.
      injection Hl1 as <-. apply array_fresh_Forall2. exact Harr.
  - intros l1 k rs l2 rd Hk Hno Hdec.
    rewrite (payload_last_member l1 l2 k _ Hk Hno) in Hdec.
    destruct (object recordsDataFields l1 zeroRecordsData) as [e|v1]; [discriminate|].
    destruct (storeSlice_elements "[]netcup.Record" zeroRecord unmarshalRecord
                (map recordTree rs) (DNSRecords v1) rs (Hfull rs _))
      as (s & Hs & Hel).
    rewrite Hs in Hdec. injection Hdec as <-. exact Hel.
  - intros l1 k rs l2 Hk Hno1 Hno2.
    assert (Hdec : exists rd,
               unmarshalRecordsData (JObj (l1 ++ (k, JArr (map recordTree rs)) :: l2))
                 zeroRecordsData = inr rd
               /\ elements (DNSRecords rd) = Some rs).
    { rewrite (payload_last_member l1 l2 k _ Hk Hno2), (records_unknown l1 Hno1).
      destruct (storeSlice_elements "[]netcup.Record" zeroRecord unmarshalRecord
                  (map recordTree rs) (DNSRecords zeroRecordsData) rs (Hfull rs _))
        as (s & Hs & Hel).
      rewrite Hs. now eexists. }
    destruct Hdec as (rd & Hdec & Hel). split.
    + intros d w1 Hreq. rewrite GetRecords_eq, Hreq. unfold storeRecords.
      rewrite Hdec, Hel. reflexivity.
    + intros d sent w1 Hreq. rewrite UpdateRecords_eq, Hreq. unfold storeRecords.
      rewrite Hdec, Hel. reflexivity.
Qed.

(** *** C9 *)

Lemma sameIdentity_refl (c : Client) : sameIdentity c c.
Proof. repeat split. Qed.

Lemma storeRecords_frame (out : result (option value) * World) :
  sameIdentity (client (snd out)) (client (snd (storeRecords out))).
Proof.
  destruct out as [[[raw|]|e|msg] w1]; try apply sameIdentity_refl.
  unfold storeRecords.
  destruct (unmarshalRecordsData raw zeroRecordsData); repeat split.
Qed.

(** C9.  Whatever they return, the four operations leave the customer
    number, the API key, the endpoint, the transport handle and the domain
    name of the client as they were; [Login] and [Logout] also leave the
    cached records, [GetRecords] and [UpdateRecords] also leave the session
    token. *)
Theorem C9_frame (w : World) :
  (forall pw,
      sameIdentity (client w) (client (snd (Login float64 pw w)))
      /\ records (client (snd (Login float64 pw w))) = records (client w))
  /\ (sameIdentity (client w) (client (snd (Logout float64 w)))
      /\ records (client (snd (Logout float64 w))) = records (client w))
  /\ (forall d,
      sameIdentity (client w) (client (snd (GetRecords float64 d w)))
      /\ sessionID (client (snd (GetRecords float64 d w))) = sessionID (client w))
  /\ (forall d rs,
      sameIdentity (client w) (client (snd (UpdateRecords float64 d rs w)))
      /\ sessionID (client (snd (UpdateRecords float64 d rs w)))
         = sessionID (client w)).
Proof.
  split; [|split; [|split]].
  - intros pw. rewrite Login_eq.
    pose proof (request_client "login" (Some (loginParam pw)) w) as Hc.
    destruct (request float64 "login" (Some (loginParam pw)) w)
      as [[[raw|]|e|msg] w1]; cbn [snd] in Hc |- *;
      try (rewrite Hc; split; [apply sameIdentity_refl | reflexivity]).
    destruct (unmarshalLoginData raw {| APISessionID := "" |});
      cbn [snd inWorld client withSessionID]; rewrite Hc; repeat split.
  - rewrite Logout_eq.
    pose proof (request_client "logout" None w) as Hc.
    destruct (request float64 "logout" None w) as [[raw|e|msg] w1];
      cbn [snd inWorld client withSessionID] in Hc |- *; rewrite Hc;
      repeat split.
  - intros d. rewrite GetRecords_eq, storeRecords_session, request_client.
    split; [|reflexivity].
    rewrite <- (request_client "infoDnsRecords" (Some (infoParam d)) w) at 1.
    apply storeRecords_frame.
  - intros d rs. rewrite UpdateRecords_eq, storeRecords_session, request_client.
    split; [|reflexivity].
    rewrite <- (request_client "updateDnsRecords"
                  (Some (updateParam d {| Records := rs |})) w) at 1.
    apply storeRecords_frame.
Qed.

(** *** C8 *)

(** Every failure of a decoding step is returned as an error: a body that
    is not a JSON text, an envelope that does not decode, and a payload
    that is there but does not decode. *)
Lemma decoding_errors_returned (w : World) :
  (forall action param msg,
      sessionID (client w) <> "" \/ action = "login" ->
      (forall ex, transport w (wire w) ex = Responds (Readable (inl msg))) ->
      fst (request float64 action param w) = err (SyntaxError msg))
  /\ (forall action param j e,
      sessionID (client w) <> "" \/ action = "login" ->
      (forall ex, transport w (wire w) ex = Responds (Readable (inr j))) ->
      unmarshalResponseBody (inr j) zeroResponseBody = inl e ->
      fst (request float64 action param w) = err e)
  /\ (forall pw raw e w1,
      request float64 "login" (Some (loginParam pw)) w = (ok (Some raw), w1) ->
      unmarshalLoginData raw {| APISessionID := "" |} = inl e ->
      Login float64 pw w = (err e, w1))
  /\ (forall d raw e w1,
      request float64 "infoDnsRecords" (Some (infoParam d)) w = (ok (Some raw), w1) ->
      unmarshalRecordsData raw zeroRecordsData = inl e ->
      GetRecords float64 d w = (err e, w1))
  /\ (forall d rs raw e w1,
      request float64 "updateDnsRecords"
        (Some (updateParam d {| Records := rs |})) w = (ok (Some raw), w1) ->
      unmarshalRecordsData raw zeroRecordsData = inl e ->
      UpdateRecords float64 d rs w = (err e, w1)).
Proof.
  assert (Hpre : forall action,
             sessionID (client w) <> "" \/ action = "login" ->
             (sessionID (client w) =? "") && negb (action =? "login") = false).
  { intros action [Hs| ->].
    - apply String.eqb_neq in Hs. now rewrite Hs.
    - apply andb_false_r. }
  split; [|split; [|split; [|split]]].
  - intros action param msg Hp Ht.
    rewrite request_dispatch, (Hpre _ Hp). cbv zeta. rewrite Ht. reflexivity.
  - intros action param j e Hp Ht He.
    rewrite request_dispatch, (Hpre _ Hp). cbv zeta. rewrite Ht.
    unfold conclude. rewrite He. reflexivity.
  - intros pw raw e w1 H1 H2. rewrite Login_eq, H1, H2. reflexivity.
  - intros d raw e w1 H1 H2. rewrite GetRecords_eq, H1. unfold storeRecords.
    rewrite H2. reflexivity.
  - intros d rs raw e w1 H1 H2. rewrite UpdateRecords_eq, H1. unfold storeRecords.
    rewrite H2. reflexivity.
Qed.

(** C8, where the code departs from it.  When the envelope has status code
    2000 and its [responsedata] is absent or [null], [request] returns a
    nil pointer with a nil error, and [Login], [GetRecords] and
    [UpdateRecords] dereference it: they panic instead of returning an
    error. *)
Theorem C8_nil_payload_panics (w : World) (b : body) (r : responseBody) :
  (forall ex, transport w (wire w) ex = Responds (Readable b)) ->
  unmarshalResponseBody b zeroResponseBody = inr r ->
  StatusCode r = 2000%Z ->
  ResponseData r = None ->
  (forall pw, fst (Login float64 pw w) = panic nilDereference)
  /\ (sessionID (client w) <> "" ->
      (forall d, fst (GetRecords float64 d w) = panic nilDereference)
      /\ (forall d rs, fst (UpdateRecords float64 d rs w) = panic nilDereference)).
Proof.
  intros Ht Hb Hcode Hnil.
  assert (Hreq : forall action param,
             sessionID (client w) <> "" \/ action = "login" ->
             request float64 action param w =
             (ok None, afterPost (exchangeOf (client w) action (paramMapOf param)) w)).
  { intros action param Hpre.
    rewrite (request_envelope action param w b r Ht Hb Hpre), Hcode, Hnil.
    reflexivity. }
  split.
  - intros pw. rewrite Login_eq, Hreq by (now right). reflexivity.
  - intros Hs. split.
    + intros d. rewrite GetRecords_eq, Hreq by (now left). reflexivity.
    + intros d rs. rewrite UpdateRecords_eq, Hreq by (now left). reflexivity.
Qed.

(** *** C10 *)

(** An object none of whose keys binds the field to a string that is not
    empty leaves the session identifier empty. *)
Lemma object_no_session_id (members : list (string * value)) :
  (forall k v, In (k, v) members ->
     foldName k = foldName "apisessionid" -> v = JStr "" \/ v = JNull) ->
  object loginDataFields members {| APISessionID := "" |}
  = inr {| APISessionID := "" |}.
Proof.
  induction members as [|[k v] rest IH]; intros Hall; [reflexivity|].
  cbn [object].
  assert (Hrest : object loginDataFields rest {| APISessionID := "" |}
                  = inr {| APISessionID := "" |}).
  { apply IH. intros k' v' Hin. apply Hall. now right. }
  unfold findField, loginDataFields at 1 2. cbn [find fst].
  destruct ("apisessionid" =? k) eqn:Hexact.
  - apply String.eqb_eq in Hexact. subst k.
    destruct (Hall "apisessionid" v (or_introl eq_refl) eq_refl) as [-> | ->];
      exact Hrest.
  - destruct (foldName "apisessionid" =? foldName k) eqn:Hfold.
    + apply String.eqb_eq in Hfold.
      destruct (Hall k v (or_introl eq_refl) (eq_sym Hfold)) as [-> | ->];
        exact Hrest.
    + exact Hrest.
Qed.

(** C10, amended.  When the [request] of a [Login] succeeds and the payload
    is an object in which every key that matches the field [apisessionid],
    as [Unmarshal] matches them (the key itself or a key equal to it under
    case folding), is bound to the empty string or to [null] - an object
    without such a key in particular - [Login] returns a nil error and the
    session token is empty; every later [request] with an action other than
    "login", and so [Logout], [GetRecords] and [UpdateRecords], fails the
    session check. *)
Theorem C10_login_without_session_id
    (w w1 : World) (pw : string) (members : list (string * value)) :
  request float64 "login" (Some (loginParam pw)) w = (ok (Some (JObj members)), w1) ->
  (forall k v, In (k, v) members ->
     foldName k = foldName "apisessionid" -> v = JStr "" \/ v = JNull) ->
  let w2 := inWorld (withSessionID "" (client w1)) w1 in
  Login float64 pw w = (ok tt, w2)
  /\ sessionID (client w2) = ""
  /\ (forall action param, action <> "login" ->
        request float64 action param w2 = (err noSession, w2))
  /\ Logout float64 w2 = (err noSession, w2)
  /\ (forall d, GetRecords float64 d w2 = (err noSession, w2))
  /\ (forall d rs, UpdateRecords float64 d rs w2 = (err noSession, w2)).
Proof.
  intros Hreq Hall w2.
  split.
  - rewrite Login_eq, Hreq. unfold unmarshalLoginData, unmarshalStruct.
    rewrite (object_no_session_id members Hall). reflexivity.
  - split; [reflexivity|].
    destruct (operations_no_session w2 eq_refl) as (H1 & H2 & H3 & H4).
    repeat split; assumption.
Qed.

(** *** C6 and C7 *)

(** C6, amended.  A record whose six string fields are valid UTF-8 is read
    back from its JSON form as it was, in all seven fields, whatever the
    record it is decoded into held before. *)
Theorem C6_record_round_trip (r old : Record_) :
  validRecord r = true ->
  unmarshalRecord (marshalRecord r) old = inr r.
Proof.
  unfold validRecord. intros H.
  repeat (apply andb_prop in H; destruct H as [H ?]).
  unfold marshalRecord, marshalString.
  rewrite !appendString_valid by assumption.
  destruct r; reflexivity.
Qed.

(** C7.  The JSON form of a record is an object with the seven members
    [id], [hostname], [type], [priority], [destination], [deleterecord] and
    [state], each once and no other, whatever the record holds - the zero
    record included.  Inside the parameter of [UpdateRecords] a record goes
    through a map on its way to the wire: it is then written with the same
    seven keys, in sorted order. *)
Theorem C7_record_keys (r : Record_) :
  (exists members,
      marshalRecord r = JObj members /\ map fst members = recordKeys)
  /\ marshalRecord zeroRecord =
     JObj [ ("id", JStr ""); ("hostname", JStr ""); ("type", JStr "");
            ("priority", JStr ""); ("destination", JStr "");
            ("deleterecord", JBool false); ("state", JStr "") ]
  /\ valueInterface float64 (marshalRecord r) = inr (recordInterface r)
  /\ (exists members,
      marshalInterface (recordInterface r) = JObj members
      /\ map fst members = recordKeysSorted).
Proof.
  split; [eexists; split; reflexivity|].
  split; [reflexivity|].
  split; [apply valueInterface_record|].
  eexists; split; reflexivity.
Qed.

End Facts.

(** *** The tests of netcup_test.go *)

(** TestLogin: the request sent is the one the test wants, and the client
    holds the session identifier of the response. *)
Example TestLogin :
  Login sameLiteral "password" (testWorld "" loginReply) =
  (ok tt,
   {| client := testClient "thisisasessionid";
      transport := server loginReply;
      wire :=
        [ {| via := 1; url := "http://127.0.0.1"; contentType := "application/json";
             sent :=
               JObj [ ("action", JStr "login");
                      ("param",
                       JObj [ ("apikey", JStr "key");
                              ("apipassword", JStr "password");
                              ("customernumber", JNum (Int 1234)) ]) ] |} ] |}).
Proof. reflexivity. Qed.

(** TestLogout *)
Example TestLogout :
  Logout sameLiteral (testWorld "thisisasessionid" logoutReply) =
  (ok tt,
   {| client := testClient "";
      transport := server logoutReply;
      wire :=
        [ {| via := 1; url := "http://127.0.0.1"; contentType := "application/json";
             sent :=
               JObj [ ("action", JStr "logout");
                      ("param",
                       JObj [ ("apikey", JStr "key");
                              ("apisessionid", JStr "thisisasessionid");
                              ("customernumber", JNum (Int 1234)) ]) ] |} ] |}).
Proof. reflexivity. Qed.

(** TestInfoDNSRecords *)
Example TestInfoDNSRecords :
  let out := GetRecords sameLiteral "example.com"
               (testWorld "thisisasessionid" infoReply) in
  fst out = ok (Some wantRecords)
  /\ records (client (snd out)) = Some wantRecords
  /\ map sent (wire (snd out)) =
     [ JObj [ ("action", JStr "infoDnsRecords");
              ("param",
               JObj [ ("apikey", JStr "key");
                      ("apisessionid", JStr "thisisasessionid");
                      ("customernumber", JNum (Int 1234));
                      ("domainname", JStr "example.com") ]) ] ].
Proof. repeat split. Qed.

(** TestUpdateDNSRecords *)
Example TestUpdateDNSRecords :
  let out := UpdateRecords sameLiteral "example.com" (Some [updateRecord])
               (testWorld "thisisasessionid" updateReply) in
  fst out = ok (Some (wantRecords ++ [mkRecord "123456" "@" "TXT" "0" "test"]))
  /\ map sent (wire (snd out)) =
     [ JObj [ ("action", JStr "updateDnsRecords");
              ("param",
               JObj [ ("apikey", JStr "key");
                      ("apisessionid", JStr "thisisasessionid");
                      ("customernumber", JNum (Int 1234));
                      ("dnsrecordset",
                       JObj [ ("dnsrecords",
                               JArr [ JObj [ ("deleterecord", JBool false);
                                             ("destination", JStr "test");
                                             ("hostname", JStr "@");
                                             ("id", JStr "");
                                             ("priority", JStr "0");
                                             ("state", JStr "yes");
                                             ("type", JStr "TXT") ] ]) ]);
                      ("domainname", JStr "example.com") ]) ] ].
Proof. repeat split. Qed.

(** A payload that holds [dnsrecords] twice: the second array is decoded
    into the record the first one left. *)
Example repeated_key_is_merged :
  fst (GetRecords sameLiteral "example.com"
         (testWorld "thisisasessionid" repeatedReply))
  = ok (Some [ {| ID := "3"; Hostname := "a"; Type_ := ""; Priority := "";
                  Destination := ""; DeleteRecord := false; State := "" |} ]).
Proof. reflexivity. Qed.

(** *** The statements at concrete inputs *)

(** C1 on a fresh client. *)
Lemma C1_witness :
  Logout sameLiteral (testWorld "" logoutReply)
  = (err noSession, testWorld "" logoutReply).
Proof.
  exact (proj1 (proj2 (C1_unauthenticated sameLiteral (testWorld "" logoutReply) eq_refl))).
Defined.

(** C2 on the request of TestUpdateDNSRecords. *)
Lemma C2_witness :
  exists ex,
    wire (snd (request sameLiteral "updateDnsRecords"
                 (Some (updateParam "example.com" {| Records := Some [updateRecord] |}))
                 (testWorld "thisisasessionid" updateReply)))
    = [] ++ [ex]
    /\ mapaccess "customernumber" (paramSent ex) = Some (JNum (Int 1234))
    /\ mapaccess "apikey" (paramSent ex) = Some (JStr "key")
    /\ mapaccess "apisessionid" (paramSent ex) = Some (JStr "thisisasessionid")
    /\ mapaccess "domainname" (paramSent ex) = Some (JStr "example.com")
    /\ mapaccess "dnsrecordset" (paramSent ex)
       = Some (JObj [ ("dnsrecords",
                       JArr [ JObj [ ("deleterecord", JBool false);
                                     ("destination", JStr "test");
                                     ("hostname", JStr "@");
                                     ("id", JStr "");
                                     ("priority", JStr "0");
                                     ("state", JStr "yes");
                                     ("type", JStr "TXT") ] ]) ]).
Proof.
  eexists. split; [vm_compute; reflexivity|].
  pose proof (C2_common_request_data sameLiteral "updateDnsRecords"
                (Some (updateParam "example.com" {| Records := Some [updateRecord] |}))
                (testWorld "thisisasessionid" updateReply) _ eq_refl)
    as (_ & Hnumber & Hkey & Hsession & _ & _ & _ & _ & Hupdate & _).
  split; [exact Hnumber|]. split; [exact Hkey|].
  split; [apply Hsession; discriminate|].
  exact (Hupdate "example.com" {| Records := Some [updateRecord] |} eq_refl).
Defined.

(** C3 on the login of TestLogin. *)
Lemma C3_witness :
  sessionID (client (snd (Login sameLiteral "password" (testWorld "" loginReply))))
  = "thisisasessionid".
Proof.
  exact (proj2 (proj1 (C3_session_transitions sameLiteral (testWorld "" loginReply))
                  "password" (JObj [("apisessionid", JStr "thisisasessionid")])
                  {| APISessionID := "thisisasessionid" |} _ eq_refl eq_refl)).
Defined.

(** C4 on an envelope with status code 4013. *)
Lemma C4_witness :
  apiFailure "infoDnsRecords" "The session id is not in a valid format."
    (testClient "thisisasessionid")
    (GetRecords sameLiteral "example.com" (testWorld "thisisasessionid" failureReply)).
Proof.
  refine (proj1 (proj2 (proj1 (proj2
    (proj1 (C4_api_error sameLiteral (testWorld "thisisasessionid" failureReply)
              (inr failureReply)
              {| ServerRequestID := ""; ClientRequestID := ""; Action := "";
                 Status := "error"; StatusCode := 4013; ShortMessage := "";
                 LongMessage := "The session id is not in a valid format.";
                 ResponseData := Some (JStr "") |}
              (fun _ => eq_refl) eq_refl) _)) _)) "example.com");
    discriminate.
Defined.

(** C5 on a response that holds a record to be deleted. *)
Lemma C5_witness :
  GetRecords sameLiteral "example.com" (testWorld "thisisasessionid" deletedReply)
  = (ok (Some [deletedRecord]),
     inWorld (withRecords (Some [deletedRecord])
                (client (snd (request sameLiteral "infoDnsRecords"
                                (Some (infoParam "example.com"))
                                (testWorld "thisisasessionid" deletedReply)))))
       (snd (request sameLiteral "infoDnsRecords" (Some (infoParam "example.com"))
               (testWorld "thisisasessionid" deletedReply)))).
Proof.
  refine (proj1 (proj2 (proj2 (proj2 (proj2 (proj2 (proj2
    (C5_records_as_received sameLiteral
       (testWorld "thisisasessionid" deletedReply)))))))
    [] "dnsrecords" [deletedRecord] [] eq_refl _ _) "example.com" _ eq_refl).
  - intros k' x [].
  - intros k' x [].
Defined.

(** C6 on the record sent by TestUpdateDNSRecords. *)
Lemma C6_witness :
  unmarshalRecord (marshalRecord updateRecord) zeroRecord = inr updateRecord.
Proof. exact (C6_record_round_trip updateRecord zeroRecord eq_refl). Defined.

(** C6 as the specification states it fails on a record whose id is not
    valid UTF-8: the byte 0xFF is written as U+FFFD and read back as the
    three bytes EF BF BD. *)
Lemma C6_counterexample :
  unmarshalRecord (marshalRecord invalidRecord) zeroRecord
  = inr {| ID := utf8.RuneError; Hostname := "@"; Type_ := "A"; Priority := "0";
           Destination := "127.0.0.1"; DeleteRecord := false; State := "yes" |}
  /\ unmarshalRecord (marshalRecord invalidRecord) zeroRecord <> inr invalidRecord.
Proof. split; [reflexivity | discriminate]. Qed.

(** C8: [Login], [GetRecords] and [UpdateRecords] panic on an envelope with
    status code 2000 and no payload. *)
Lemma C8_witness :
  fst (Login sameLiteral "password" (testWorld "" noPayloadReply))
  = panic nilDereference.
Proof.
  exact (proj1 (C8_nil_payload_panics sameLiteral (testWorld "" noPayloadReply)
                  (inr noPayloadReply)
                  {| ServerRequestID := ""; ClientRequestID := ""; Action := "";
                     Status := ""; StatusCode := 2000; ShortMessage := "";
                     LongMessage := ""; ResponseData := None |}
                  (fun _ => eq_refl) eq_refl eq_refl eq_refl) "password").
Defined.

(** The same with a payload that is [null]. *)
Lemma null_payload_panics :
  fst (Login sameLiteral "password" (testWorld "" nullPayloadReply))
  = panic nilDereference
  /\ fst (GetRecords sameLiteral "example.com"
            (testWorld "thisisasessionid" nullPayloadReply))
     = panic nilDereference
  /\ fst (UpdateRecords sameLiteral "example.com" (Some [updateRecord])
            (testWorld "thisisasessionid" nullPayloadReply))
     = panic nilDereference.
Proof. repeat split. Qed.

(** C10 on a login payload without key. *)
Lemma C10_witness :
  Login sameLiteral "password" (testWorld "" emptyObjectReply)
  = (ok tt,
     inWorld (withSessionID ""
                (client (afterPost (exchangeOf (testClient "") "login"
                                      (paramMapOf (Some (loginParam "password"))))
                           (testWorld "" emptyObjectReply))))
       (afterPost (exchangeOf (testClient "") "login"
                     (paramMapOf (Some (loginParam "password"))))
          (testWorld "" emptyObjectReply))).
Proof.
  refine (proj1 (C10_login_without_session_id sameLiteral
                   (testWorld "" emptyObjectReply) _ "password" [] eq_refl _)).
  intros k v [].
Defined.

(** C10 as the specification states it fails on a payload whose key is
    written in capitals: the object has no key [apisessionid], and yet
    [Login] stores the session identifier, and the [Logout] that follows
    passes the session check and sends its request. *)
Lemma C10_counterexample :
  fst (request sameLiteral "login" (Some (loginParam "password"))
         (testWorld "" capitalsReply))
  = ok (Some (JObj [("APISESSIONID", JStr "thisisasessionid")]))
  /\ mapaccess "apisessionid" [("APISESSIONID", JStr "thisisasessionid")] = None
  /\ fst (Login sameLiteral "password" (testWorld "" capitalsReply)) = ok tt
  /\ sessionID (client (snd (Login sameLiteral "password" (testWorld "" capitalsReply))))
     = "thisisasessionid"
  /\ List.length
       (wire (snd (Logout sameLiteral
                     (snd (Login sameLiteral "password" (testWorld "" capitalsReply))))))
     = 2.
Proof. repeat split. Qed.

End netcup_facts.

(* ================================================================== *)
(** * Further properties of the package *)

Module netcup_extra.
Import json netcup json_facts netcup_facts.

(** ** What [Marshal] writes is valid UTF-8 *)

(** X16.  Whatever the bytes of a Go string - an API key, a password, a
    domain name - the string [Marshal] writes for it in a request is valid
    UTF-8, and writing that string once more gives it back unchanged: the
    conversion of the parameter to a map and back does not alter it any
    further. *)
Theorem X16_written_strings_valid (s : string) :
  utf8.ValidString (appendString s) = true
  /\ appendString (appendString s) = appendString s.
Proof. split; [apply appendString_is_valid | apply appendString_idempotent]. Qed.

Section Extra.
Variable float64 : number -> option number.

(** ** The world after an operation *)

Lemma request_atMostOneCall (action : string) (param : option Param) (w : World) :
  atMostOneCall w (snd (request float64 action param w)).
Proof.
  rewrite request_dispatch. unfold atMostOneCall.
  destruct ((sessionID (client w) =? "") && negb (action =? "login")).
  - split; [reflexivity | now left].
  - split; [reflexivity|]. right. eexists. repeat split.
Qed.

(** X1.  Each of the four operations sends at most one request; the request
    goes through the [http.Client] of the client, to the endpoint of the
    client, with content type [application/json]; what was on the wire
    before stays there and the transport is not replaced. *)
Theorem X1_at_most_one_request (w : World) :
  (forall pw, atMostOneCall w (snd (Login float64 pw w)))
  /\ atMostOneCall w (snd (Logout float64 w))
  /\ (forall d, atMostOneCall w (snd (GetRecords float64 d w)))
  /\ (forall d rs, atMostOneCall w (snd (UpdateRecords float64 d rs w))).
Proof.
  unfold atMostOneCall.
  split; [|split; [|split]].
  - intros pw. destruct (Login_world float64 pw w) as [-> ->].
    apply request_atMostOneCall.
  - destruct (Logout_world float64 w) as [-> ->]. apply request_atMostOneCall.
  - intros d. rewrite GetRecords_eq.
    destruct (storeRecords_world
                (request float64 "infoDnsRecords" (Some (infoParam d)) w)) as [-> ->].
    apply request_atMostOneCall.
  - intros d rs. rewrite UpdateRecords_eq.
    destruct (storeRecords_world
                (request float64 "updateDnsRecords"
                   (Some (updateParam d {| Records := rs |})) w)) as [-> ->].
    apply request_atMostOneCall.
Qed.

(** ** Failures *)

(** X2.  An operation that does not return normally - it returns an error or
    panics - leaves every field of the client as it was. *)
Theorem X2_failure_keeps_client (w : World) :
  (forall pw, fst (Login float64 pw w) <> ok tt ->
     client (snd (Login float64 pw w)) = client w)
  /\ (fst (Logout float64 w) <> ok tt ->
      client (snd (Logout float64 w)) = client w)
  /\ (forall d, (forall got, fst (GetRecords float64 d w) <> ok got) ->
      client (snd (GetRecords float64 d w)) = client w)
  /\ (forall d rs, (forall got, fst (UpdateRecords float64 d rs w) <> ok got) ->
      client (snd (UpdateRecords float64 d rs w)) = client w).
Proof.
  assert (Hstore : forall out,
             (forall got, fst (storeRecords out) <> ok got) ->
             client (snd (storeRecords out)) = client (snd out)).
  { intros [[[raw|]|e|msg] w1]; try reflexivity.
    unfold storeRecords.
    destruct (unmarshalRecordsData raw zeroRecordsData) as [e|rd];
      [reflexivity|].
    intros H. now elim (H (elements (DNSRecords rd))). }
  split; [|split; [|split]].
  - intros pw. rewrite Login_eq.
    pose proof (request_client float64 "login" (Some (loginParam pw)) w) as Hc.
    destruct (request float64 "login" (Some (loginParam pw)) w)
      as [[[raw|]|e|msg] w1]; cbn [snd] in Hc; try (intros _; exact Hc).
    destruct (unmarshalLoginData raw {| APISessionID := "" |});
      [intros _; exact Hc | intros H; now elim H].
  - rewrite Logout_eq.
    pose proof (request_client float64 "logout" None w) as Hc.
    destruct (request float64 "logout" None w) as [[raw|e|msg] w1];
      cbn [snd] in Hc; try (intros _; exact Hc).
    intros H; now elim H.
  - intros d. rewrite GetRecords_eq. intros H.
    rewrite (Hstore _ H). apply request_client.
  - intros d rs. rewrite UpdateRecords_eq. intros H.
    rewrite (Hstore _ H). apply request_client.
Qed.

(** X3.  When the transport fails - [Post] returns an error, or the body of
    the response cannot be read - each operation that sent a request returns
    that error, and the session token and the cached records stay as they
    were. *)
Theorem X3_transport_failure (w : World) (msg : string) :
  (forall ex, transport w (wire w) ex = PostFails msg)
  \/ (forall ex, transport w (wire w) ex = Responds (Unreadable msg)) ->
  (forall pw,
     fst (Login float64 pw w) = err (transportError msg)
     /\ client (snd (Login float64 pw w)) = client w)
  /\ (sessionID (client w) <> "" ->
      (fst (Logout float64 w) = err (transportError msg)
       /\ client (snd (Logout float64 w)) = client w)
      /\ (forall d,
            fst (GetRecords float64 d w) = err (transportError msg)
            /\ client (snd (GetRecords float64 d w)) = client w)
      /\ (forall d rs,
            fst (UpdateRecords float64 d rs w) = err (transportError msg)
            /\ client (snd (UpdateRecords float64 d rs w)) = client w)).
Proof.
  intros Ht.
  assert (Hreq : forall action param,
             sessionID (client w) <> "" \/ action = "login" ->
             request float64 action param w =
             (err (transportError msg),
              afterPost (exchangeOf (client w) action (paramMapOf param)) w)).
  { intros action param Hpre. rewrite (request_concluded float64 action param w Hpre).
    destruct Ht as [Ht|Ht]; rewrite Ht; reflexivity. }
  split.
  - intros pw. rewrite Login_eq, Hreq by (now right). split; reflexivity.
  - intros Hs. split; [|split].
    + rewrite Logout_eq, Hreq by (now left). split; reflexivity.
    + intros d. rewrite GetRecords_eq, Hreq by (now left). split; reflexivity.
    + intros d rs. rewrite UpdateRecords_eq, Hreq by (now left). split; reflexivity.
Qed.

(** ** The requests on the wire *)

(** X4.  The request of each operation, member by member.  [Login] sends the
    action [login] with [apikey], [apipassword], the session token if the
    client holds one, and [customernumber]; with a session token, [Logout]
    sends the common request data alone, [GetRecords] adds [domainname], and
    [UpdateRecords] adds [dnsrecordset], an object whose only member
    [dnsrecords] holds the records, and [domainname].  The members of
    [param] are in the order of their keys, and every string is written as
    one [Marshal] writes it. *)
Theorem X4_requests_on_the_wire (w : World) :
  (forall pw,
     wire (snd (Login float64 pw w))
     = wire w ++ [requestOf (client w) "login" [("apipassword", marshalString pw)] []])
  /\ (sessionID (client w) <> "" ->
      wire (snd (Logout float64 w))
      = wire w ++ [requestOf (client w) "logout" [] []]
      /\ (forall d,
            wire (snd (GetRecords float64 d w))
            = wire w ++ [requestOf (client w) "infoDnsRecords" []
                           [("domainname", marshalString d)]])
      /\ (forall d rs,
            wire (snd (UpdateRecords float64 d rs w))
            = wire w ++ [requestOf (client w) "updateDnsRecords" []
                           [ ("dnsrecordset", JObj [("dnsrecords", recordsWire rs)]);
                             ("domainname", marshalString d) ]])).
Proof.
  split.
  - intros pw. rewrite (proj1 (Login_world float64 pw w)), request_wire by (now right).
    now rewrite exchangeOf_eq.
  - intros Hs. split; [|split].
    + rewrite (proj1 (Logout_world float64 w)), request_wire by (now left).
      now rewrite exchangeOf_eq.
    + intros d. rewrite GetRecords_eq, (proj1 (storeRecords_world _)).
      rewrite request_wire by (now left). now rewrite exchangeOf_eq.
    + intros d rs. rewrite UpdateRecords_eq, (proj1 (storeRecords_world _)).
      rewrite request_wire by (now left). now rewrite exchangeOf_eq.
Qed.

(** X5.  The keys of the [param] object of a request are strictly
    increasing, so no key occurs twice, whatever the parameter and the
    client. *)
Theorem X5_param_keys_sorted (c : Client) (action : string) (param : option Param) :
  sortedKeys (paramSent (exchangeOf c action (paramMapOf param))) = true.
Proof.
  rewrite exchangeOf_eq. unfold requestOf, paramSent, sessionMember.
  destruct param as [[pw|d|d rs]|]; destruct (sessionID c =? ""); reflexivity.
Qed.

(** ** Records on the wire *)

Lemma recordWire_round_trip (r old : Record_) :
  validRecord r = true -> unmarshalRecord (recordWire r) old = inr r.
Proof.
  unfold validRecord. intros H.
  repeat (apply andb_prop in H; destruct H as [H ?]).
  unfold recordWire, marshalString.
  rewrite !appendString_valid by assumption.
  destruct r; reflexivity.
Qed.

Lemma recordsWire_read_back (l : list Record_) :
  forallb validRecord l = true ->
  storeSlice "[]netcup.Record" zeroRecord unmarshalRecord (recordsWire (Some l)) nilSlice
  = inr {| elements := Some l; spare := [] |}.
Proof.
  intros Hvalid.
  assert (Harr : array zeroRecord unmarshalRecord (map recordWire l) [] = inr l).
  { induction l as [|r l IH]; [reflexivity|].
    cbn [forallb] in Hvalid. apply andb_prop in Hvalid. destruct Hvalid as [Hr Hl].
    cbn [map array hd tl].
    rewrite (recordWire_round_trip r zeroRecord Hr), (IH Hl). reflexivity. }
  unfold recordsWire, storeSlice.
  change (backingOf (@nilSlice Record_)) with (@nil Record_).
  rewrite Harr. destruct l; reflexivity.
Qed.

Lemma dnsrecordset_sent (c : Client) (action d : string) (rs : option (list Record_)) :
  mapaccess "dnsrecordset"
    (paramSent (requestOf c action []
                  [ ("dnsrecordset", JObj [("dnsrecords", recordsWire rs)]);
                    ("domainname", marshalString d) ]))
  = Some (JObj [("dnsrecords", recordsWire rs)]).
Proof.
  unfold requestOf, paramSent, sessionMember.
  destruct (sessionID c =? ""); reflexivity.
Qed.

(** X6.  The records [UpdateRecords] puts on the wire can be read back: the
    request holds them under [dnsrecordset], in the member [dnsrecords], and
    when their string fields are valid UTF-8, decoding that member into a nil
    slice gives the records submitted, as many and in the same order, and
    nothing behind them.  A nil slice is sent as [null]. *)
Theorem X6_records_sent_read_back (w : World) (d : string) :
  sessionID (client w) <> "" ->
  (forall l,
     forallb validRecord l = true ->
     exists ex dnsrecords,
       wire (snd (UpdateRecords float64 d (Some l) w)) = wire w ++ [ex]
       /\ mapaccess "dnsrecordset" (paramSent ex) = Some (JObj [("dnsrecords", dnsrecords)])
       /\ storeSlice "[]netcup.Record" zeroRecord unmarshalRecord dnsrecords nilSlice
          = inr {| elements := Some l; spare := [] |})
  /\ (exists ex,
       wire (snd (UpdateRecords float64 d None w)) = wire w ++ [ex]
       /\ mapaccess "dnsrecordset" (paramSent ex) = Some (JObj [("dnsrecords", JNull)])).
Proof.
  intros Hs.
  assert (Hwire : forall rs,
             wire (snd (UpdateRecords float64 d rs w))
             = wire w ++ [requestOf (client w) "updateDnsRecords" []
                            [ ("dnsrecordset", JObj [("dnsrecords", recordsWire rs)]);
                              ("domainname", marshalString d) ]]).
  { intros rs. rewrite UpdateRecords_eq, (proj1 (storeRecords_world _)).
    rewrite request_wire by (now left). now rewrite exchangeOf_eq. }
  split.
  - intros l Hvalid. eexists. exists (recordsWire (Some l)).
    split; [apply Hwire|]. split; [apply dnsrecordset_sent|].
    now apply recordsWire_read_back.
  - eexists. split; [apply Hwire|]. apply (dnsrecordset_sent _ _ _ None).
Qed.

(** ** Sessions *)

Lemma session_sent (c : Client) (action : string) (param : option Param) :
  sessionID c <> "" ->
  mapaccess "apisessionid" (paramSent (exchangeOf c action (paramMapOf param)))
  = Some (marshalString (sessionID c)).
Proof.
  intros Hs. apply String.eqb_neq in Hs.
  rewrite exchangeOf_eq. unfold requestOf, paramSent, sessionMember.
  destruct param as [[pw|d|d rs]|]; rewrite Hs; reflexivity.
Qed.

(** X7.  The session identifier a [Login] obtains is the one the requests
    after it carry: when [Login] has stored an identifier that is not empty,
    every later [request] of that client, and so [Logout], [GetRecords] and
    [UpdateRecords], sends a request with [apisessionid] bound to that
    identifier. *)
Theorem X7_session_is_sent
    (w w1 : World) (pw : string) (raw : value) (rd : loginData) :
  request float64 "login" (Some (loginParam pw)) w = (ok (Some raw), w1) ->
  unmarshalLoginData raw {| APISessionID := "" |} = inr rd ->
  APISessionID rd <> "" ->
  let w2 := snd (Login float64 pw w) in
  (forall action param,
     sendsSession (APISessionID rd) w2 (snd (request float64 action param w2)))
  /\ sendsSession (APISessionID rd) w2 (snd (Logout float64 w2))
  /\ (forall d, sendsSession (APISessionID rd) w2 (snd (GetRecords float64 d w2)))
  /\ (forall d rs,
        sendsSession (APISessionID rd) w2 (snd (UpdateRecords float64 d rs w2))).
Proof.
  intros Hreq Hdec Hne w2.
  assert (Hs : sessionID (client w2) = APISessionID rd).
  { subst w2. rewrite Login_eq, Hreq, Hdec. reflexivity. }
  assert (H : forall action param,
             sendsSession (APISessionID rd) w2 (snd (request float64 action param w2))).
  { intros action param. eexists. split.
    - apply request_wire. left. now rewrite Hs.
    - rewrite <- Hs. apply session_sent. now rewrite Hs. }
  unfold sendsSession in *.
  split; [exact H|]. split; [|split].
  - rewrite (proj1 (Logout_world float64 w2)). apply H.
  - intros d. rewrite GetRecords_eq, (proj1 (storeRecords_world _)). apply H.
  - intros d rs. rewrite UpdateRecords_eq, (proj1 (storeRecords_world _)). apply H.
Qed.

(** X8.  A [Logout] whose [request] succeeds ends the session: afterwards
    [request] with an action other than "login", [Logout], [GetRecords] and
    [UpdateRecords] return the unauthenticated error and send nothing, until
    the next [Login]. *)
Theorem X8_logout_ends_session (w w1 : World) (payload : option value) :
  request float64 "logout" None w = (ok payload, w1) ->
  let w2 := snd (Logout float64 w) in
  sessionID (client w2) = ""
  /\ (forall action param, action <> "login" ->
        request float64 action param w2 = (err noSession, w2))
  /\ Logout float64 w2 = (err noSession, w2)
  /\ (forall d, GetRecords float64 d w2 = (err noSession, w2))
  /\ (forall d rs, UpdateRecords float64 d rs w2 = (err noSession, w2)).
Proof.
  intros Hreq w2.
  assert (Hs : sessionID (client w2) = "").
  { subst w2. rewrite Logout_eq, Hreq. reflexivity. }
  split; [exact Hs|]. exact (operations_no_session float64 w2 Hs).
Qed.

(** X9.  A client made by [NewClient] holds no session, whatever the
    customer number and the API key: [Logout], [GetRecords] and
    [UpdateRecords] fail without sending anything, and [Login] sends its
    request to the production endpoint, without [apisessionid]. *)
Theorem X9_new_client
    (customerNumber : Z) (apiKey : string) (http : pointer)
    (t : list Exchange -> Exchange -> Reply) (log : list Exchange) :
  let w := {| client := NewClient customerNumber apiKey http;
              transport := t; wire := log |} in
  Logout float64 w = (err noSession, w)
  /\ (forall d, GetRecords float64 d w = (err noSession, w))
  /\ (forall d rs, UpdateRecords float64 d rs w = (err noSession, w))
  /\ (forall pw,
        wire (snd (Login float64 pw w))
        = log ++ [ {| via := http;
                      url := endpoint_const;
                      contentType := "application/json";
                      sent :=
                        JObj [ ("action", JStr "login");
                               ("param",
                                JObj [ ("apikey", marshalString apiKey);
                                       ("apipassword", marshalString pw);
                                       ("customernumber", JNum (Int customerNumber)) ]) ]
                   |} ]).
Proof.
  intros w.
  destruct (operations_no_session float64 w eq_refl) as (_ & H2 & H3 & H4).
  repeat split; try assumption.
  intros pw. rewrite (proj1 (Login_world float64 pw w)), request_wire by (now right).
  now rewrite exchangeOf_eq.
Qed.

(** ** The map of a request *)

Lemma compare_refl (s : string) : String.compare s s = Eq.
Proof.
  pose proof (String.compare_antisym s s) as H.
  destruct (String.compare s s); [reflexivity | discriminate | discriminate].
Qed.

Lemma compare_neq (k k' : string) : String.compare k k' <> Eq -> (k' =? k) = false.
Proof.
  intros H. apply String.eqb_neq. intros ->. apply H, compare_refl.
Qed.

(** After [m[k] = v], [m[k]] is [v] and the other entries are as before. *)
Lemma mapaccess_mapassign_same {V : Type} (k : string) (v : V) (m : gomap V) :
  mapaccess k (mapassign k v m) = Some v.
Proof.
  induction m as [|[k' v'] rest IH]; cbn [mapassign mapaccess].
  - now rewrite String.eqb_refl.
  - destruct (String.compare k k') eqn:Hc; cbn [mapaccess].
    + now rewrite String.eqb_refl.
    + now rewrite String.eqb_refl.
    + rewrite (compare_neq k k') by (rewrite Hc; discriminate). exact IH.
Qed.

Lemma mapaccess_mapassign_other {V : Type} (k k2 : string) (v : V) (m : gomap V) :
  k <> k2 -> mapaccess k2 (mapassign k v m) = mapaccess k2 m.
Proof.
  intros Hne. apply String.eqb_neq in Hne.
  induction m as [|[k' v'] rest IH]; cbn [mapassign mapaccess].
  - now rewrite Hne.
  - destruct (String.compare k k') eqn:Hc; cbn [mapaccess].
    + apply String.compare_eq_iff in Hc. subst k'. now rewrite Hne.
    + now rewrite Hne.
    + now rewrite IH.
Qed.

(** [m[k] = v] keeps the keys strictly increasing. *)
Lemma sortedKeys_tail {V : Type} (kv : string * V) (m : gomap V) :
  sortedKeys (kv :: m) = true -> sortedKeys m = true.
Proof.
  destruct kv as [k v]. destruct m as [|[k' v'] rest]; [reflexivity|].
  cbn [sortedKeys]. destruct (String.compare k k'); try discriminate. trivial.
Qed.

Lemma sortedKeys_mapassign {V : Type} (k : string) (v : V) (m : gomap V) :
  sortedKeys m = true -> sortedKeys (mapassign k v m) = true.
Proof.
  induction m as [|[k' v'] rest IH]; intros Hs; [reflexivity|].
  cbn [mapassign]. destruct (String.compare k k') eqn:Hc.
  - apply String.compare_eq_iff in Hc. subst k'.
    destruct rest; exact Hs.
  - cbn [sortedKeys]. rewrite Hc. exact Hs.
  - assert (Hk : String.compare k' k = Lt)
      by (rewrite String.compare_antisym, Hc; reflexivity).
    specialize (IH (sortedKeys_tail _ _ Hs)).
    destruct rest as [|[k'' v''] rest'].
    + cbn [mapassign sortedKeys]. now rewrite Hk.
    + cbn [sortedKeys] in Hs.
      destruct (String.compare k' k'') eqn:Hc'; try discriminate.
      cbn [mapassign] in IH |- *.
      destruct (String.compare k k'') eqn:Hc2.
      * cbn [sortedKeys] in IH |- *. rewrite Hk. exact IH.
      * cbn [sortedKeys] in IH |- *. rewrite Hk. exact IH.
      * remember (mapassign k v rest') as tl.
        cbn [sortedKeys] in IH |- *. rewrite Hc'. exact IH.
Qed.

(** X10.  Lines 88-92 of [request] on any map: the common request data take
    the place of entries of the parameter with the same keys -
    [customernumber] and [apikey] always, [apisessionid] when the client
    holds a session token; without a token an entry [apisessionid] of the
    parameter stays; every other entry stays as it was, and the keys stay
    strictly increasing. *)
Theorem X10_common_data (c : Client) (m : gomap iface) :
  mapaccess "customernumber" (commonData c m) = Some (IfInt (customerNumber c))
  /\ mapaccess "apikey" (commonData c m) = Some (IfString (apiKey c))
  /\ (sessionID c <> "" ->
      mapaccess "apisessionid" (commonData c m) = Some (IfString (sessionID c)))
  /\ (sessionID c = "" ->
      mapaccess "apisessionid" (commonData c m) = mapaccess "apisessionid" m)
  /\ (forall k, k <> "customernumber" -> k <> "apikey" -> k <> "apisessionid" ->
      mapaccess k (commonData c m) = mapaccess k m)
  /\ (sortedKeys m = true -> sortedKeys (commonData c m) = true).
Proof.
  unfold commonData.
  destruct (sessionID c =? "") eqn:Hs; cbn [negb].
  - apply String.eqb_eq in Hs. repeat split.
    + rewrite mapaccess_mapassign_other by discriminate.
      apply mapaccess_mapassign_same.
    + apply mapaccess_mapassign_same.
    + intros H. now elim H.
    + intros _. now rewrite !mapaccess_mapassign_other by discriminate.
    + intros k H1 H2 _.
      now rewrite !mapaccess_mapassign_other by congruence.
    + intros H. now apply sortedKeys_mapassign, sortedKeys_mapassign.
  - apply String.eqb_neq in Hs. repeat split.
    + rewrite !mapaccess_mapassign_other by discriminate.
      apply mapaccess_mapassign_same.
    + rewrite mapaccess_mapassign_other by discriminate.
      apply mapaccess_mapassign_same.
    + intros _. apply mapaccess_mapassign_same.
    + intros H. now elim Hs.
    + intros k H1 H2 H3.
      now rewrite !mapaccess_mapassign_other by congruence.
    + intros H. now apply sortedKeys_mapassign, sortedKeys_mapassign,
                  sortedKeys_mapassign.
Qed.

(** ** Decoding objects *)

(** X11.  Members the package does not know are ignored: a member whose key
    equals none of the seven names of a record, even up to case folding, can
    stand anywhere in the JSON form of a record without changing the record
    decoded, and likewise for the eight names of the envelope of a
    response. *)
Theorem X11_unknown_members_ignored (k : string) (x : value)
    (l1 l2 : list (string * value)) :
  ((forall name, In name recordKeys -> foldName name <> foldName k) ->
   forall old,
     unmarshalRecord (JObj (l1 ++ (k, x) :: l2)) old
     = unmarshalRecord (JObj (l1 ++ l2)) old)
  /\ ((forall name, In name (map fst responseBodyFields) -> foldName name <> foldName k) ->
      forall old,
        unmarshalResponseBody (inr (JObj (l1 ++ (k, x) :: l2))) old
        = unmarshalResponseBody (inr (JObj (l1 ++ l2))) old).
Proof.
  split; intros H old.
  - unfold unmarshalRecord, unmarshalStruct.
    apply object_skip, findField_none. exact H.
  - unfold unmarshalResponseBody, unmarshalStruct.
    apply object_skip, findField_none. exact H.
Qed.

(** A member that its field refuses makes the decoding of the object fail. *)
Lemma object_error {T : Type} (fields : list (@field T)) (k : string) (x : value)
    (f : @field T) :
  findField fields k = Some f ->
  (forall v, exists e, snd f x v = inl e) ->
  forall members v,
    In (k, x) members -> exists e, object fields members v = inl e.
Proof.
  intros Hf Hbad. induction members as [|[k1 x1] rest IH]; intros v Hin;
    [destruct Hin|].
  cbn [object]. destruct Hin as [Heq|Hin].
  - injection Heq as -> ->. rewrite Hf. destruct (Hbad v) as [e ->]. now exists e.
  - destruct (findField fields k1) as [f1|]; [|now apply IH].
    destruct (snd f1 x1 v) as [e|v']; [now exists e | now apply IH].
Qed.

Lemma storeInt_error (x : value) (e : error) :
  storeInt x 0 = inl e -> forall old, storeInt x old = inl e.
Proof.
  destruct x as [|b|[z|lit]|s|l|l]; cbn [storeInt]; intros H old;
    try discriminate; try exact H.
Qed.

(** X12.  The status code has to be a JSON integer that fits an [int]: when
    the envelope binds [statuscode] to a string, a bool, an array, an object,
    a number with a fraction or an exponent, or an integer out of range, the
    envelope does not decode, and each operation that sent its request
    returns an error - the payload is not looked at, and the client stays as
    it was. *)
Theorem X12_status_code_is_an_integer
    (w : World) (members : list (string * value)) (x : value) (e0 : error) :
  (forall ex, transport w (wire w) ex = Responds (Readable (inr (JObj members)))) ->
  In ("statuscode", x) members ->
  storeInt x 0 = inl e0 ->
  exists e,
    unmarshalResponseBody (inr (JObj members)) zeroResponseBody = inl e
    /\ (forall pw,
          fst (Login float64 pw w) = err e
          /\ client (snd (Login float64 pw w)) = client w)
    /\ (sessionID (client w) <> "" ->
        (fst (Logout float64 w) = err e
         /\ client (snd (Logout float64 w)) = client w)
        /\ (forall d,
              fst (GetRecords float64 d w) = err e
              /\ client (snd (GetRecords float64 d w)) = client w)
        /\ (forall d rs,
              fst (UpdateRecords float64 d rs w) = err e
              /\ client (snd (UpdateRecords float64 d rs w)) = client w)).
Proof.
  intros Ht Hin Hbad.
  destruct (object_error responseBodyFields "statuscode" x
              (nth 4 responseBodyFields ("", fun _ r => inr r)) eq_refl)
    with (members := members) (v := zeroResponseBody) as [e He]; [|exact Hin|].
  { intros v. exists e0. cbn [nth responseBodyFields snd].
    now rewrite (storeInt_error x e0 Hbad). }
  exists e. split; [exact He|].
  assert (Hreq : forall action param,
             sessionID (client w) <> "" \/ action = "login" ->
             request float64 action param w =
             (err e, afterPost (exchangeOf (client w) action (paramMapOf param)) w)).
  { intros action param Hpre. rewrite (request_concluded float64 action param w Hpre).
    rewrite Ht. unfold conclude.
    change (unmarshalResponseBody (inr (JObj members)) zeroResponseBody)
      with (object responseBodyFields members zeroResponseBody).
    rewrite He. reflexivity. }
  split.
  - intros pw. rewrite Login_eq, Hreq by (now right). split; reflexivity.
  - intros Hs. split; [|split].
    + rewrite Logout_eq, Hreq by (now left). split; reflexivity.
    + intros d. rewrite GetRecords_eq, Hreq by (now left). split; reflexivity.
    + intros d rs. rewrite UpdateRecords_eq, Hreq by (now left). split; reflexivity.
Qed.

(** A property of the value decoded into is kept by an object when every
    field keeps it for the members the object holds. *)
Lemma object_invariant {T : Type} (fields : list (@field T))
    (P : T -> Prop) (Q : string -> value -> Prop) :
  (forall f k x v v',
     In f fields -> foldName (fst f) = foldName k -> Q k x -> P v ->
     snd f x v = inr v' -> P v') ->
  forall members v r,
    (forall k x, In (k, x) members -> Q k x) ->
    P v -> object fields members v = inr r -> P r.
Proof.
  intros Hstep. induction members as [|[k x] rest IH]; intros v r HQ HP Hobj;
    cbn [object] in Hobj.
  - injection Hobj as <-. exact HP.
  - assert (HQrest : forall k0 x0, In (k0, x0) rest -> Q k0 x0)
      by (intros k0 x0 Hin; apply HQ; now right).
    destruct (findField fields k) as [f|] eqn:Hf; [|now apply (IH v r)].
    destruct (snd f x v) as [e|v'] eqn:Hstore; [discriminate|].
    apply findField_some in Hf. destruct Hf as [Hin Hfold].
    apply (IH v' r HQrest); [|exact Hobj].
    exact (Hstep f k x v v' Hin Hfold (HQ k x (or_introl eq_refl)) HP Hstore).
Qed.

(** The cases of a hypothesis [In f fields] for a list of fields written
    out, and the result of a decoder stored into a field. *)
Ltac each_field Hin :=
  cbn [In responseBodyFields recordsDataFields] in Hin;
  repeat (destruct Hin as [<-|Hin]); [..|destruct Hin].

Ltac stored H :=
  cbn [snd] in H; unfold into in H;
  match type of H with
  | match ?d with inl _ => _ | inr _ => _ end = _ =>
      let s := fresh "s" in
      let Hd := fresh "Hd" in
      destruct d as [?|s] eqn:Hd; [discriminate|]; injection H as <-
  end.

Lemma envelope_without_status_code (members : list (string * value)) (r : responseBody) :
  (forall k x, In (k, x) members ->
     foldName k = foldName "statuscode" -> x = JNull) ->
  object responseBodyFields members zeroResponseBody = inr r ->
  StatusCode r = 0%Z.
Proof.
  intros HQ Hobj.
  apply (object_invariant responseBodyFields
           (fun v => StatusCode v = 0%Z)
           (fun k x => foldName k = foldName "statuscode" -> x = JNull))
    with (members := members) (v := zeroResponseBody); auto.
  intros f k x v v' Hin Hfold Hnull HP Hstore.
  each_field Hin; try (stored Hstore; exact HP).
  cbn [fst] in Hfold. rewrite (Hnull (eq_sym Hfold)) in Hstore.
  cbn [snd storeInt] in Hstore. unfold into in Hstore. injection Hstore as <-. exact HP.
Qed.

(** X13.  An envelope without status code reports a failure: when no member
    of the envelope has a key that matches [statuscode], or every such
    member is [null], the status code decoded is 0, and each operation that
    sent its request returns the API error with the long message of the
    envelope and leaves the session token and the cached records. *)
Theorem X13_missing_status_code
    (w : World) (members : list (string * value)) (r : responseBody) :
  (forall ex, transport w (wire w) ex = Responds (Readable (inr (JObj members)))) ->
  (forall k x, In (k, x) members ->
     foldName k = foldName "statuscode" -> x = JNull) ->
  unmarshalResponseBody (inr (JObj members)) zeroResponseBody = inr r ->
  StatusCode r = 0%Z
  /\ (forall pw, apiFailure "login" (LongMessage r) (client w) (Login float64 pw w))
  /\ (sessionID (client w) <> "" ->
      apiFailure "logout" (LongMessage r) (client w) (Logout float64 w)
      /\ (forall d,
            apiFailure "infoDnsRecords" (LongMessage r) (client w)
              (GetRecords float64 d w))
      /\ (forall d rs,
            apiFailure "updateDnsRecords" (LongMessage r) (client w)
              (UpdateRecords float64 d rs w))).
Proof.
  intros Ht HQ Hdec.
  assert (Hcode : StatusCode r = 0%Z)
    by (apply (envelope_without_status_code members r HQ); exact Hdec).
  split; [exact Hcode|].
  assert (Hreq : forall action param,
             sessionID (client w) <> "" \/ action = "login" ->
             request float64 action param w =
             (err (requestFailed action (LongMessage r)),
              afterPost (exchangeOf (client w) action (paramMapOf param)) w)).
  { intros action param Hpre.
    rewrite (request_envelope float64 action param w _ r Ht Hdec Hpre), Hcode.
    reflexivity. }
  unfold apiFailure. split.
  - intros pw. rewrite Login_eq, Hreq by (now right). repeat split.
  - intros Hs. split; [|split].
    + rewrite Logout_eq, Hreq by (now left). repeat split.
    + intros d. rewrite GetRecords_eq, Hreq by (now left). repeat split.
    + intros d rs. rewrite UpdateRecords_eq, Hreq by (now left). repeat split.
Qed.

Lemma payload_without_records (members : list (string * value)) :
  (forall k x, In (k, x) members ->
     foldName k = foldName "dnsrecords" -> x = JNull) ->
  unmarshalRecordsData (JObj members) zeroRecordsData
  = inr zeroRecordsData.
Proof.
  intros HQ. unfold unmarshalRecordsData, unmarshalStruct.
  induction members as [|[k x] rest IH]; [reflexivity|].
  cbn [object].
  assert (Hrest : object recordsDataFields rest zeroRecordsData
                  = inr zeroRecordsData)
    by (apply IH; intros k0 x0 Hin; apply HQ; now right).
  destruct (findField recordsDataFields k) as [f|] eqn:Hf; [|exact Hrest].
  apply findField_some in Hf. destruct Hf as [Hin Hfold].
  each_field Hin. cbn [fst] in Hfold.
  rewrite (HQ k x (or_introl eq_refl) (eq_sym Hfold)). exact Hrest.
Qed.

(** X14.  A payload without records empties the cache: when the payload is
    an object in which no key matches [dnsrecords], or every such key is
    bound to [null], [GetRecords] and [UpdateRecords] return a nil slice
    with a nil error, and the records cached before are gone. *)
Theorem X14_payload_without_records
    (w w1 : World) (members : list (string * value)) :
  (forall k x, In (k, x) members ->
     foldName k = foldName "dnsrecords" -> x = JNull) ->
  (forall d,
     request float64 "infoDnsRecords" (Some (infoParam d)) w
     = (ok (Some (JObj members)), w1) ->
     GetRecords float64 d w = (ok None, inWorld (withRecords None (client w1)) w1))
  /\ (forall d rs,
      request float64 "updateDnsRecords" (Some (updateParam d {| Records := rs |})) w
      = (ok (Some (JObj members)), w1) ->
      UpdateRecords float64 d rs w
      = (ok None, inWorld (withRecords None (client w1)) w1)).
Proof.
  intros HQ. split.
  - intros d Hreq. rewrite GetRecords_eq, Hreq. unfold storeRecords.
    rewrite (payload_without_records members HQ). reflexivity.
  - intros d rs Hreq. rewrite UpdateRecords_eq, Hreq. unfold storeRecords.
    rewrite (payload_without_records members HQ). reflexivity.
Qed.

(** The payload [request] returns behind a pointer that is not nil is never
    [null]. *)
Lemma envelope_payload_not_null (members : list (string * value)) (r : responseBody) :
  object responseBodyFields members zeroResponseBody = inr r ->
  ResponseData r <> Some JNull.
Proof.
  intros Hobj.
  apply (object_invariant responseBodyFields
           (fun v => ResponseData v <> Some JNull) (fun _ _ => True))
    with (members := members) (v := zeroResponseBody); auto; [|discriminate].
  intros f k x v v' Hin _ _ HP Hstore.
  each_field Hin; try (stored Hstore; exact HP).
  cbn [snd] in Hstore. unfold into, storeRawMessage in Hstore.
  destruct x; injection Hstore as <-; discriminate.
Qed.

Lemma request_payload_not_null
    (action : string) (param : option Param) (w w1 : World) (raw : value) :
  request float64 action param w = (ok (Some raw), w1) -> raw <> JNull.
Proof.
  rewrite request_dispatch.
  destruct ((sessionID (client w) =? "") && negb (action =? "login"));
    [discriminate|].
  cbv zeta. unfold conclude.
  destruct (transport w (wire w) _) as [msg|[msg|[msg|j]]]; try discriminate.
  destruct (unmarshalResponseBody (inr j) zeroResponseBody) as [e|r] eqn:Hdec;
    [discriminate|].
  destruct (negb (StatusCode r =? 2000)%Z); [discriminate|].
  intros H. injection H as Hraw _. intros ->.
  destruct j as [|b|n|s|l|members]; try discriminate.
  - injection Hdec as <-. discriminate.
  - exact (envelope_payload_not_null members r Hdec Hraw).
Qed.

(** X15.  A payload that is not an object is refused: when [request]
    returns a payload that is a string, a number, a bool or an array -
    [null] never comes back behind the pointer - [Login], [GetRecords] and
    [UpdateRecords] return a type error that names the kind of the payload,
    and the client is left as [request] left it. *)
Theorem X15_payload_not_an_object (w w1 : World) (raw : value) :
  (forall members, raw <> JObj members) ->
  (forall pw,
     request float64 "login" (Some (loginParam pw)) w = (ok (Some raw), w1) ->
     exists ty, Login float64 pw w = (err (UnmarshalTypeError (kind raw) ty), w1))
  /\ (forall d,
      request float64 "infoDnsRecords" (Some (infoParam d)) w = (ok (Some raw), w1) ->
      exists ty, GetRecords float64 d w = (err (UnmarshalTypeError (kind raw) ty), w1))
  /\ (forall d rs,
      request float64 "updateDnsRecords" (Some (updateParam d {| Records := rs |})) w
      = (ok (Some raw), w1) ->
      exists ty,
        UpdateRecords float64 d rs w = (err (UnmarshalTypeError (kind raw) ty), w1)).
Proof.
  intros Hobj. split; [|split].
  - intros pw Hreq. pose proof (request_payload_not_null _ _ _ _ _ Hreq) as Hnull.
    rewrite Login_eq, Hreq. eexists.
    destruct raw; try reflexivity; [now elim Hnull | now elim (Hobj members)].
  - intros d Hreq. pose proof (request_payload_not_null _ _ _ _ _ Hreq) as Hnull.
    rewrite GetRecords_eq, Hreq. unfold storeRecords. eexists.
    destruct raw; try reflexivity; [now elim Hnull | now elim (Hobj members)].
  - intros d rs Hreq. pose proof (request_payload_not_null _ _ _ _ _ Hreq) as Hnull.
    rewrite UpdateRecords_eq, Hreq. unfold storeRecords. eexists.
    destruct raw; try reflexivity; [now elim Hnull | now elim (Hobj members)].
Qed.

End Extra.

(** ** The further properties at concrete inputs *)

Lemma X2_witness :
  client (snd (Login sameLiteral "password" (testWorld "" failureReply)))
  = testClient "".
Proof.
  apply (proj1 (X2_failure_keeps_client sameLiteral (testWorld "" failureReply))
           "password").
  vm_compute. discriminate.
Defined.

Lemma X3_witness :
  fst (GetRecords sameLiteral "example.com" (downWorld "thisisasessionid"))
  = err (transportError "connection refused").
Proof.
  refine (proj1 (proj1 (proj2 (proj2
    (X3_transport_failure sameLiteral (downWorld "thisisasessionid")
       "connection refused" (or_introl (fun _ => eq_refl))) _)) "example.com")).
  discriminate.
Defined.

Lemma X4_witness :
  wire (snd (Logout sameLiteral (testWorld "thisisasessionid" logoutReply)))
  = [] ++ [requestOf (testClient "thisisasessionid") "logout" [] []].
Proof.
  refine (proj1 (proj2
    (X4_requests_on_the_wire sameLiteral (testWorld "thisisasessionid" logoutReply)) _)).
  discriminate.
Defined.

Lemma X6_witness :
  exists ex dnsrecords,
    wire (snd (UpdateRecords sameLiteral "example.com" (Some [updateRecord])
                 (testWorld "thisisasessionid" updateReply))) = [] ++ [ex]
    /\ mapaccess "dnsrecordset" (paramSent ex) = Some (JObj [("dnsrecords", dnsrecords)])
    /\ storeSlice "[]netcup.Record" zeroRecord unmarshalRecord dnsrecords nilSlice
       = inr {| elements := Some [updateRecord]; spare := [] |}.
Proof.
  refine (proj1
    (X6_records_sent_read_back sameLiteral (testWorld "thisisasessionid" updateReply)
       "example.com" _) [updateRecord] eq_refl).
  discriminate.
Defined.

Lemma X7_witness :
  sendsSession "thisisasessionid"
    (snd (Login sameLiteral "password" (testWorld "" loginReply)))
    (snd (GetRecords sameLiteral "example.com"
            (snd (Login sameLiteral "password" (testWorld "" loginReply))))).
Proof.
  refine (proj1 (proj2 (proj2
    (X7_session_is_sent sameLiteral (testWorld "" loginReply)
       (snd (request sameLiteral "login" (Some (loginParam "password"))
               (testWorld "" loginReply)))
       "password" (JObj [("apisessionid", JStr "thisisasessionid")])
       {| APISessionID := "thisisasessionid" |} eq_refl eq_refl _))) "example.com").
  discriminate.
Defined.

Lemma X8_witness :
  GetRecords sameLiteral "example.com"
    (snd (Logout sameLiteral (testWorld "thisisasessionid" logoutReply)))
  = (err noSession, snd (Logout sameLiteral (testWorld "thisisasessionid" logoutReply))).
Proof.
  exact (proj1 (proj2 (proj2 (proj2
    (X8_logout_ends_session sameLiteral (testWorld "thisisasessionid" logoutReply)
       (snd (request sameLiteral "logout" None
               (testWorld "thisisasessionid" logoutReply)))
       (Some (JStr "")) eq_refl)))) "example.com").
Defined.

Lemma X10_witness :
  mapaccess "apisessionid"
    (commonData (testClient "thisisasessionid")
       [("apisessionid", IfString "stale"); ("domainname", IfString "example.com")])
  = Some (IfString "thisisasessionid").
Proof.
  refine (proj1 (proj2 (proj2
    (X10_common_data (testClient "thisisasessionid")
       [("apisessionid", IfString "stale"); ("domainname", IfString "example.com")]))) _).
  discriminate.
Defined.

Lemma X11_witness :
  unmarshalRecord (JObj recordWithTTL) zeroRecord
  = unmarshalRecord
      (JObj [ ("id", JStr "123451"); ("hostname", JStr "@"); ("type", JStr "A");
              ("priority", JStr "0"); ("destination", JStr "127.0.0.1");
              ("deleterecord", JBool false); ("state", JStr "yes") ])
      zeroRecord.
Proof.
  refine (proj1 (X11_unknown_members_ignored "ttl" (JNum (Int 300))
                   [ ("id", JStr "123451"); ("hostname", JStr "@") ]
                   [ ("type", JStr "A"); ("priority", JStr "0");
                     ("destination", JStr "127.0.0.1");
                     ("deleterecord", JBool false); ("state", JStr "yes") ]) _ zeroRecord).
  intros name Hin.
  repeat (destruct Hin as [<-|Hin]; [vm_compute; discriminate|]).
  destruct Hin.
Defined.

Lemma X12_witness :
  exists e,
    unmarshalResponseBody (inr quotedCodeReply) zeroResponseBody = inl e
    /\ (forall pw,
          fst (Login sameLiteral pw (testWorld "" quotedCodeReply)) = err e
          /\ client (snd (Login sameLiteral pw (testWorld "" quotedCodeReply)))
             = testClient "")
    /\ (sessionID (testClient "") <> "" ->
        (fst (Logout sameLiteral (testWorld "" quotedCodeReply)) = err e
         /\ client (snd (Logout sameLiteral (testWorld "" quotedCodeReply)))
            = testClient "")
        /\ (forall d,
              fst (GetRecords sameLiteral d (testWorld "" quotedCodeReply)) = err e
              /\ client (snd (GetRecords sameLiteral d (testWorld "" quotedCodeReply)))
                 = testClient "")
        /\ (forall d rs,
              fst (UpdateRecords sameLiteral d rs (testWorld "" quotedCodeReply)) = err e
              /\ client (snd (UpdateRecords sameLiteral d rs
                                (testWorld "" quotedCodeReply)))
                 = testClient "")).
Proof.
  exact (X12_status_code_is_an_integer sameLiteral (testWorld "" quotedCodeReply)
           [ ("statuscode", JStr "2000");
             ("responsedata", JObj [ ("apisessionid", JStr "thisisasessionid") ]) ]
           (JStr "2000") (UnmarshalTypeError "string" "int")
           (fun _ => eq_refl) (or_introl eq_refl) eq_refl).
Defined.

Lemma X13_witness :
  apiFailure "login" "Api key missing." (testClient "")
    (Login sameLiteral "password" (testWorld "" noCodeReply)).
Proof.
  refine (proj1 (proj2
    (X13_missing_status_code sameLiteral (testWorld "" noCodeReply)
       [ ("longmessage", JStr "Api key missing.") ]
       {| ServerRequestID := ""; ClientRequestID := ""; Action := ""; Status := "";
          StatusCode := 0; ShortMessage := ""; LongMessage := "Api key missing.";
          ResponseData := None |}
       (fun _ => eq_refl) _ eq_refl)) "password").
  intros k x [Heq|[]] Hfold. injection Heq as <- <-.
  vm_compute in Hfold. discriminate.
Defined.

Lemma X14_witness :
  fst (GetRecords sameLiteral "example.com"
         (testWorld "thisisasessionid" emptyObjectReply))
  = ok None.
Proof.
  refine (f_equal fst
    (proj1 (X14_payload_without_records sameLiteral
              (testWorld "thisisasessionid" emptyObjectReply)
              (snd (request sameLiteral "infoDnsRecords"
                      (Some (infoParam "example.com"))
                      (testWorld "thisisasessionid" emptyObjectReply)))
              [] _) "example.com" eq_refl)).
  intros k x [].
Defined.

Lemma X15_witness :
  exists ty,
    GetRecords sameLiteral "example.com" (testWorld "thisisasessionid" logoutReply)
    = (err (UnmarshalTypeError "string" ty),
       snd (request sameLiteral "infoDnsRecords" (Some (infoParam "example.com"))
              (testWorld "thisisasessionid" logoutReply))).
Proof.
  refine (proj1 (proj2
    (X15_payload_not_an_object sameLiteral (testWorld "thisisasessionid" logoutReply)
       (snd (request sameLiteral "infoDnsRecords" (Some (infoParam "example.com"))
               (testWorld "thisisasessionid" logoutReply)))
       (JStr "") _)) "example.com" eq_refl).
  discriminate.
Defined.

End netcup_extra.
